(** * Vans dashboard: data loading, KPI calculation and display safety

    A shallow embedding of [streamlit_app.py].  The script is a straight
    line of pandas and Streamlit calls, and the embedding keeps that shape.

    - Python strings are [string], byte by byte; [lower] and [strip] act on
      the ASCII range, which is all the keyword tests of the script look at.
    - A DataFrame cell is a [cell]: a Python [str], an integer, a float, or
      one of the missing markers [nan], [None] and [pd.NA].  A float is a
      rational here: its rounding is not modelled, nor are infinities.
    - A DataFrame is a list of labelled columns.  It lives in a store and
      is handled through a reference, so that [df.copy()] and the in-place
      assignment [df[col] = ...] keep their meaning.
    - A Streamlit call appends an element to the page; static text (titles,
      CSS, footer) and the emoji of the labels are left out.  [st.stop()]
      and the Python exceptions end the run early.
    - What the user does (the radio button, the file picker) and what the
      file system holds are the inputs of a run.  The password gate comes
      before everything else; it is modelled on its own, on the session
      state, after the run it guards.

    The pandas functions follow pandas 2.x. *)

From Stdlib Require Import String Ascii List ZArith QArith Bool Lia.
From Stdlib Require Import Numbers.DecimalString.
From stdpp Require Import base option list gmap strings fin_maps.

Local Open Scope string_scope.

(** ** Python strings *)

Module PyStr.

Definition lower_char (c : ascii) : ascii :=
  let n := nat_of_ascii c in
  if (65 <=? n)%nat && (n <=? 90)%nat then ascii_of_nat (n + 32) else c.

(** [s.lower()] *)
Fixpoint lower (s : string) : string :=
  match s with
  | EmptyString => EmptyString
  | String c s' => String (lower_char c) (lower s')
  end.

(** [sub in s] *)
Fixpoint contains (sub s : string) : bool :=
  String.prefix sub s ||
  match s with
  | EmptyString => false
  | String _ s' => contains sub s'
  end.

(** [s.endswith(suffix)] *)
Fixpoint endswith (s suffix : string) : bool :=
  String.eqb s suffix ||
  match s with
  | EmptyString => false
  | String _ s' => endswith s' suffix
  end.

Definition is_space (c : ascii) : bool :=
  let n := nat_of_ascii c in
  ((9 <=? n)%nat && (n <=? 13)%nat) || ((28 <=? n)%nat && (n <=? 32)%nat).

Fixpoint lstrip (s : string) : string :=
  match s with
  | EmptyString => EmptyString
  | String c s' => if is_space c then lstrip s' else s
  end.

Fixpoint rstrip (s : string) : string :=
  match s with
  | EmptyString => EmptyString
  | String c s' =>
      match rstrip s' with
      | EmptyString => if is_space c then EmptyString else String c EmptyString
      | r => String c r
      end
  end.

(** [s.strip()] *)
Definition strip (s : string) : string := rstrip (lstrip s).

(** [str(z)] for a Python integer *)
Definition of_Z (z : Z) : string := NilEmpty.string_of_int (Z.to_int z).

Fixpoint fraction_digits (fuel : nat) (num den : Z) : string :=
  match fuel with
  | O => EmptyString
  | S fuel' =>
      let d := (10 * num / den)%Z in
      let r := (10 * num mod den)%Z in
      String (ascii_of_nat (48 + Z.to_nat d))
             (if (r =? 0)%Z then EmptyString else fraction_digits fuel' r den)
  end.

(** A rendering of floats, used to run the script on examples: the decimal
    expansion, cut after 17 fractional digits.  It is [str(x)] for the
    floats with a short expansion, such as [25.0] and [0.5]. *)
Definition decimal_repr (q : Q) : string :=
  let n := Qnum q in
  let d := Zpos (Qden q) in
  let a := Z.abs n in
  String.append (if (n <? 0)%Z then "-" else "")
    (String.append (of_Z (a / d))
       (String.append "." (fraction_digits 17 (a mod d) d))).

End PyStr.

(** ** Cells and series *)

Inductive cell : Type :=
  | CStr (s : string)
  | CInt (z : Z)
  | CFloat (q : Q)
  | CNaN
  | CNone
  | CNA.

Definition series := list cell.

(** [pd.isna] *)
Definition isna (c : cell) : bool :=
  match c with
  | CNaN | CNone | CNA => true
  | _ => false
  end.

Definition is_text (c : cell) : bool :=
  match c with CStr _ => true | _ => false end.

(** The numeric value of a cell, when it has one. *)
Definition cell_num (c : cell) : option Q :=
  match c with
  | CInt z => Some (inject_Z z)
  | CFloat q => Some q
  | _ => None
  end.

(** Equality of two non-missing cells, as Python's [==] has it: text by
    characters, numbers by value. *)
Definition cell_eqb (a b : cell) : bool :=
  match a, b with
  | CStr s, CStr t => String.eqb s t
  | CStr _, _ | _, CStr _ => false
  | _, _ =>
      match cell_num a, cell_num b with
      | Some x, Some y => Qeq_bool x y
      | _, _ => false
      end
  end.

(** Python's [<=] where it is defined: within text and within numbers. *)
Definition cell_leb (a b : cell) : bool :=
  match a, b with
  | CStr s, CStr t => String.leb s t
  | _, _ =>
      match cell_num a, cell_num b with
      | Some x, Some y => Qle_bool x y
      | _, _ => false
      end
  end.

Module Series.

(** [s.dropna()] *)
Definition dropna (s : series) : series := List.filter (λ c, negb (isna c)) s.

(** [s.replace(old, new)] with a text [old]: whole-cell equality. *)
Definition replace (old : string) (new : cell) (s : series) : series :=
  map (λ c, match c with
            | CStr t => if String.eqb t old then new else c
            | _ => c
            end) s.

Fixpoint qsum (s : series) : option Q :=
  match s with
  | [] => Some 0%Q
  | c :: s' =>
      match cell_num c, qsum s' with
      | Some x, Some y => Some (x + y)%Q
      | _, _ => None
      end
  end.

(** [s.mean()]: missing cells are skipped, text makes pandas raise
    [TypeError] ([None] here), and no value at all gives [nan]. *)
Definition mean (s : series) : option cell :=
  let v := dropna s in
  match qsum v with
  | None => None
  | Some total =>
      match v with
      | [] => Some CNaN
      | _ => Some (CFloat (Qred (total / inject_Z (Z.of_nat (length v)))))
      end
  end.

(** Distinct values in order of first appearance. *)
Fixpoint unique (s : series) : series :=
  match s with
  | [] => []
  | c :: s' => c :: List.filter (λ d, negb (cell_eqb c d)) (unique s')
  end.

(** [s.nunique()] *)
Definition nunique (s : series) : nat := length (unique (dropna s)).

Definition count (c : cell) (s : series) : nat :=
  length (List.filter (cell_eqb c) s).

Fixpoint insert_sorted (c : cell) (s : series) : series :=
  match s with
  | [] => [c]
  | d :: s' => if cell_leb c d then c :: s else d :: insert_sorted c s'
  end.

Definition sort (s : series) : series := foldr insert_sorted [] s.

(** [s.mode()]: the most frequent non-missing values; sorted when they
    can be compared (all text, or all numbers), otherwise left in order
    of first appearance. *)
Definition mode (s : series) : series :=
  let v := dropna s in
  let most := foldr Nat.max 0%nat (map (λ c, count c v) v) in
  let modes := List.filter (λ c, Nat.eqb (count c v) most) (unique v) in
  if forallb is_text modes || forallb (λ c, negb (is_text c)) modes
  then sort modes else modes.

End Series.

(** ** [pd.to_numeric] *)

Module Numeric.

Inductive number : Type :=
  | NInt (z : Z)
  | NFloat (q : Q).

Definition is_digit (c : ascii) : bool :=
  let n := nat_of_ascii c in (48 <=? n)%nat && (n <=? 57)%nat.

Fixpoint all_digits (s : string) : bool :=
  match s with
  | EmptyString => true
  | String c s' => is_digit c && all_digits s'
  end.

Fixpoint digits_value (acc : Z) (s : string) : Z :=
  match s with
  | EmptyString => acc
  | String c s' => digits_value (10 * acc + (Z.of_nat (nat_of_ascii c) - 48)) s'
  end.

Fixpoint split_at_dot (s : string) : string * option string :=
  match s with
  | EmptyString => (EmptyString, None)
  | String c s' =>
      if Ascii.eqb c "."%char then (EmptyString, Some s')
      else let '(a, b) := split_at_dot s' in (String c a, b)
  end.

Definition nonempty (s : string) : bool :=
  match s with EmptyString => false | _ => true end.

Definition unsigned (s : string) : option number :=
  match split_at_dot s with
  | (ip, None) =>
      if nonempty ip && all_digits ip then Some (NInt (digits_value 0 ip)) else None
  | (ip, Some fp) =>
      if all_digits ip && all_digits fp && (nonempty ip || nonempty fp)
      then Some (NFloat (Qred (Qmake (digits_value 0 (String.append ip fp))
                                     (Z.to_pos (10 ^ Z.of_nat (String.length fp))))))
      else None
  end.

Definition value (n : number) : Q :=
  match n with
  | NInt z => inject_Z z
  | NFloat q => q
  end.

Definition negate (n : number) : number :=
  match n with
  | NInt z => NInt (- z)
  | NFloat q => NFloat (Qred (- q))
  end.

(** The literals read as numbers: an optional sign, then digits with an
    optional decimal point.  (pandas reads a few more forms, exponents
    among them; nothing below depends on which text is a number.) *)
Definition parse_number (s : string) : option number :=
  match s with
  | String "-" s' => negate <$> unsigned s'
  | String "+" s' => unsigned s'
  | _ => unsigned s
  end.

Definition to_numeric_cell (c : cell) : cell :=
  match c with
  | CStr s =>
      match parse_number s with
      | Some (NInt z) => CInt z
      | Some (NFloat q) => CFloat q
      | None => CNaN
      end
  | CInt _ | CFloat _ => c
  | CNaN | CNone | CNA => CNaN
  end.

Definition is_int (c : cell) : bool :=
  match c with CInt _ => true | _ => false end.

Definition as_float (c : cell) : cell :=
  match c with CInt z => CFloat (inject_Z z) | _ => c end.

(** [pd.to_numeric(s, errors='coerce')]: cell by cell; the result is an
    integer column when every cell is an integer and a float column
    otherwise. *)
Definition to_numeric (s : series) : series :=
  let parsed := map to_numeric_cell s in
  if forallb is_int parsed then parsed else map as_float parsed.

End Numeric.

(** ** Frames *)

Definition frame := list (string * series).

Module Frame.

Definition columns (f : frame) : list string := map fst f.

(** [len(df)] *)
Definition len (f : frame) : nat :=
  match f with
  | [] => 0%nat
  | (_, s) :: _ => length s
  end.

(** [df.empty] *)
Definition empty (f : frame) : bool :=
  Nat.eqb (len f) 0 || Nat.eqb (length f) 0.

(** The columns [df[col]] selects: every column carrying the label. *)
Definition select (col : string) (f : frame) : list series :=
  map snd (List.filter (λ c, String.eqb (fst c) col) f).

(** [df[col] = value] for a label of the frame: the selected columns are
    overwritten in place, one by one. *)
Fixpoint assign (col : string) (value : list series) (f : frame) : frame :=
  match f with
  | [] => []
  | (l, s) :: f' =>
      if String.eqb l col then
        match value with
        | v :: value' => (l, v) :: assign col value' f'
        | [] => (l, s) :: assign col [] f'
        end
      else (l, s) :: assign col value f'
  end.

(** [df.columns = labels] *)
Fixpoint set_columns (labels : list string) (f : frame) : frame :=
  match f, labels with
  | (_, s) :: f', l :: labels' => (l, s) :: set_columns labels' f'
  | _, _ => f
  end.

(** [df.head(n)] *)
Definition head (n : nat) (f : frame) : frame :=
  map (λ c, (fst c, take n (snd c))) f.

(** [df.notna().sum().sum()] *)
Definition notna_count (f : frame) : nat :=
  foldr Nat.add 0%nat (map (λ c, length (Series.dropna (snd c))) f).

End Frame.

(** ** The page and the store *)

Inductive notice : Type :=
  | SampleLoaded (respondents questions : nat)
  | SampleIssue
  | FilesNotFound
  | ExcelNotSupported
  | FileUploaded (records columns : nat)
  | PleaseUpload
  | NoDataAvailable
  | InvalidStructure
  | DashboardRunning
  | FeaturesWorking.

Inductive level : Type := StSuccess | StInfo | StWarning | StError.

(** An f-string with one field, [f"{pre}{c:spec}{post}"], kept unformatted. *)
Inductive text : Type :=
  | Lit (s : string)
  | Fmt (pre : string) (c : cell) (spec post : string).

Record metric : Type := Metric {
  label : string;
  value : text;
  delta : option text
}.

Inductive container : Type :=
  | KpiCol1 | KpiCol2 | KpiCol3 | KpiCol4 | Col1 | Col2.

Inductive element : Type :=
  | Notice (l : level) (n : notice)
  | ShowMetric (c : container) (m : metric)
  | ShowFrame (c : container) (f : frame).

Inductive exn : Type :=
  | StopException
  | TypeError
  | KeyError
  | ParserError
  | DuplicateLabel
  | ReferenceError.

Record world : Type := World {
  heap : gmap nat frame;
  page : list element
}.

Inductive res (A : Type) : Type :=
  | Ret (a : A) (w : world)
  | Exc (e : exn) (w : world).
Arguments Ret {A} a w.
Arguments Exc {A} e w.

Definition M (A : Type) : Type := world → res A.

#[export] Instance M_ret : MRet M := λ A a w, Ret a w.

#[export] Instance M_bind : MBind M := λ A B f m w,
  match m w with
  | Ret a w' => f a w'
  | Exc e w' => Exc e w'
  end.

Definition raise {A : Type} (e : exn) : M A := λ w, Exc e w.

(** [try: body / except: handler] *)
Definition try_except {A : Type} (body handler : M A) : M A := λ w,
  match body w with
  | Ret a w' => Ret a w'
  | Exc _ w' => handler w'
  end.

Fixpoint for_each {A : Type} (l : list A) (body : A → M unit) : M unit :=
  match l with
  | [] => mret ()
  | x :: l' => body x;; for_each l' body
  end.

Definition alloc (f : frame) : M nat := λ w,
  let r := fresh (dom (heap w)) in
  Ret r (World (<[r := f]> (heap w)) (page w)).

Definition read (r : nat) : M frame := λ w,
  match heap w !! r with
  | Some f => Ret f w
  | None => Exc ReferenceError w
  end.

Definition write (r : nat) (f : frame) : M unit := λ w,
  Ret () (World (<[r := f]> (heap w)) (page w)).

Definition show (e : element) : M unit := λ w,
  Ret () (World (heap w) (page w ++ [e])).

(** *** pandas *)

Definition pd_DataFrame : M nat := alloc [].

Definition df_copy (df : nat) : M nat := f ← read df; alloc f.

Definition df_head (df : nat) (n : nat) : M nat :=
  f ← read df; alloc (Frame.head n f).

Definition df_columns (df : nat) : M (list string) :=
  f ← read df; mret (Frame.columns f).

Definition df_empty (df : nat) : M bool :=
  f ← read df; mret (Frame.empty f).

Definition df_len (df : nat) : M nat :=
  f ← read df; mret (Frame.len f).

Definition df_notna_count (df : nat) : M nat :=
  f ← read df; mret (Frame.notna_count f).

(** [df[col]]: a Series for a label that occurs once, a sub-frame (several
    columns) for one that occurs more often, [KeyError] for none. *)
Definition df_getitem (df : nat) (col : string) : M (list series) :=
  f ← read df;
  match Frame.select col f with
  | [] => raise KeyError
  | selected => mret selected
  end.

(** [df[col] = value] *)
Definition df_setitem (df : nat) (col : string) (value : list series) : M unit :=
  f ← read df; write df (Frame.assign col value f).

(** [df.columns = labels] *)
Definition df_set_columns (df : nat) (labels : list string) : M unit :=
  f ← read df; write df (Frame.set_columns labels f).

(** [df[col]] where the script goes on to reduce it (dropna, mean, mode):
    these are modelled on a Series only, and a repeated label ends the
    run with [DuplicateLabel]. *)
Definition df_series (df : nat) (col : string) : M series :=
  selected ← df_getitem df col;
  match selected with
  | [s] => mret s
  | _ => raise DuplicateLabel
  end.

(** *** Streamlit *)

Definition st_success (n : notice) : M unit := show (Notice StSuccess n).
Definition st_info (n : notice) : M unit := show (Notice StInfo n).
Definition st_warning (n : notice) : M unit := show (Notice StWarning n).
Definition st_error (n : notice) : M unit := show (Notice StError n).
Definition st_stop {A : Type} : M A := raise StopException.
Definition st_metric (c : container) (l : string) (v : text) (d : option text) : M unit :=
  show (ShowMetric c (Metric l v d)).
Definition st_dataframe (c : container) (df : nat) : M unit :=
  f ← read df; show (ShowFrame c f).

(** ** What the user does *)

Inductive choice : Type := UseSample | UploadOwn.

(** An uploaded file: its name and what the CSV reader makes of it, column
    by column, header first ([None] when the reader raises). *)
Record upload : Type := Upload {
  name : string;
  content : option (list (string * list string))
}.

(** [default_csv]: [None] when the bundled file does not exist,
    [Some None] when reading it raises, [Some (Some f)] for the frame
    [pd.read_csv] infers from it. *)
Record inputs : Type := Inputs {
  data_choice : choice;
  default_csv : option (option frame);
  uploaded_file : option upload
}.

(** The text fields [pd.read_csv] takes for missing values. *)
Definition na_values : list string :=
  [""; "#N/A"; "#N/A N/A"; "#NA"; "-1.#IND"; "-1.#QNAN"; "-NaN"; "-nan";
   "1.#IND"; "1.#QNAN"; "<NA>"; "N/A"; "NA"; "NULL"; "NaN"; "None"; "n/a";
   "nan"; "null"].

Definition read_field (s : string) : cell :=
  if existsb (String.eqb s) na_values then CNaN else CStr s.

Definition read_csv_frame (raw : list (string * list string)) : frame :=
  map (λ c, (fst c, map read_field (snd c))) raw.

(** [pd.read_csv(file, dtype=str)] *)
Definition pd_read_csv_str (file : upload) : M nat :=
  match content file with
  | Some raw => alloc (read_csv_frame raw)
  | None => raise ParserError
  end.

(** ** The script *)

Section Dashboard.

(** [str(x)] of a float [x]: Python's shortest round-trip decimal, left
    open here. *)
Variable float_repr : Q → string.

(** [str(c)], cell by cell, as [s.astype(str)] applies it. *)
Definition str_of_cell (c : cell) : string :=
  match c with
  | CStr s => s
  | CInt z => PyStr.of_Z z
  | CFloat q => float_repr q
  | CNaN => "nan"
  | CNone => "None"
  | CNA => "<NA>"
  end.

Definition astype_str (s : series) : series :=
  map (λ c, CStr (str_of_cell c)) s.

Definition numeric_indicators : list string :=
  ["age"; "year"; "egp"; "days"; "hours"; "deliveries"; "income"; "salary";
   "allowance"].

(** [any(indicator in col.lower() for indicator in numeric_indicators)] *)
Definition has_numeric_indicator (col : string) : bool :=
  let col_lower := PyStr.lower col in
  existsb (λ indicator, PyStr.contains indicator col_lower) numeric_indicators.

(** *** Data loading (lines 106-155); returns [df_all] *)

(** The sample file (lines 110-119). *)
Definition load_sample (inp : inputs) (df_all : nat) : M nat :=
  match default_csv inp with
  | Some (Some f) =>
      df_all ← alloc f;
      is_empty ← df_empty df_all;
      if negb is_empty then
        n ← df_len df_all;
        columns ← df_columns df_all;
        st_success (SampleLoaded n (length columns));;
        mret df_all
      else pd_DataFrame
  | Some None => st_warning SampleIssue;; pd_DataFrame
  | None => mret df_all
  end.

(** Lines 138-139: [df_all[col] = df_all[col].replace('nan', None)]. *)
Definition replace_nan (df_all : nat) : M unit :=
  columns ← df_columns df_all;
  for_each columns (λ col,
    selected ← df_getitem df_all col;
    df_setitem df_all col (map (Series.replace "nan" CNone) selected)).

(** Lines 140-147.  The labels of a frame that was just read are distinct,
    so every selection here is one Series. *)
Definition coerce_numeric (df_all : nat) : M unit :=
  columns ← df_columns df_all;
  for_each columns (λ col,
    if has_numeric_indicator col then
      try_except
        (selected ← df_getitem df_all col;
         df_setitem df_all col (map Numeric.to_numeric selected))
        (mret ())
    else mret ()).

(** The uploaded CSV file (lines 135-147). *)
Definition load_csv (file : upload) : M nat :=
  df_all ← pd_read_csv_str file;
  is_empty ← df_empty df_all;
  (if negb is_empty then replace_nan df_all;; coerce_numeric df_all
   else mret ());;
  mret df_all.

(** The uploader (lines 127-155). *)
Definition load_upload (inp : inputs) (df_all : nat) : M nat :=
  match uploaded_file inp with
  | Some file =>
      df_all ← (if PyStr.endswith (name file) ".csv" then load_csv file
                else st_error ExcelNotSupported;; mret df_all);
      is_empty ← df_empty df_all;
      (if negb is_empty then
         n ← df_len df_all;
         columns ← df_columns df_all;
         st_success (FileUploaded n (length columns))
       else mret ());;
      mret df_all
  | None => st_info PleaseUpload;; st_stop
  end.

Definition load (inp : inputs) : M nat :=
  df_all ← pd_DataFrame;
  '(df_all, data_choice) ←
    match data_choice inp with
    | UseSample =>
        df_all ← load_sample inp df_all;
        is_empty ← df_empty df_all;
        if (is_empty : bool) then st_info FilesNotFound;; mret (df_all, UploadOwn)
        else mret (df_all, UseSample)
    | UploadOwn => mret (df_all, UploadOwn)
    end;
  is_empty ← df_empty df_all;
  if match data_choice with UploadOwn => true | UseSample => false end || is_empty
  then load_upload inp df_all
  else mret df_all.

(** *** [make_display_safe] (lines 170-179) *)

Definition make_display_safe (df : nat) : M nat :=
  display_df ← df_copy df;
  columns ← df_columns display_df;
  for_each columns (λ col,
    try_except
      (selected ← df_getitem display_df col;
       df_setitem display_df col
         (map (λ s, Series.replace "<NA>" (CStr "")
                      (Series.replace "nan" (CStr "") (astype_str s)))
              selected))
      (mret ()));;
  mret display_df.

(** *** [calculate_kpis] (lines 190-233) *)

(** One of the four blocks of the shape
    [if col in df.columns: valid = df[col].dropna(); if len(valid) > 0: ...]. *)
Definition mean_kpi (df : nat) (col avg_key count_key : string)
    (kpis : gmap string cell) : M (gmap string cell) :=
  columns ← df_columns df;
  if bool_decide (col ∈ columns) then
    s ← df_series df col;
    let valid := Series.dropna s in
    if (0 <? length valid)%nat then
      match Series.mean valid with
      | Some avg =>
          mret (<[count_key := CInt (Z.of_nat (length valid))]>
                  (<[avg_key := avg]> kpis))
      | None => raise TypeError
      end
    else mret kpis
  else mret kpis.

Definition age_col : string := "Age (Years)".
Definition delivery_col : string := "Average number of deliveries per day: ______".
Definition success_col : string := "Approximate delivery success rate (orders deliv...".
Definition income_col : string := "Please mention your Fixed Monthly Pay (if any):...".
Definition company_col : string := "Company".

Definition company_kpi (df : nat) (kpis : gmap string cell) : M (gmap string cell) :=
  columns ← df_columns df;
  if bool_decide (company_col ∈ columns) then
    s ← df_series df company_col;
    let companies := Series.nunique (Series.dropna s) in
    let kpis := <["unique_companies" := CInt (Z.of_nat companies)]> kpis in
    let top := match Series.mode s with
               | first :: _ => first
               | [] => CStr "N/A"
               end in
    mret (<["top_company" := top]> kpis)
  else mret kpis.

Definition calculate_kpis (df : nat) : M (gmap string cell) :=
  let kpis : gmap string cell := ∅ in
  kpis ← mean_kpi df age_col "avg_age" "age_count" kpis;
  kpis ← mean_kpi df delivery_col "avg_deliveries" "delivery_count" kpis;
  kpis ← mean_kpi df success_col "success_rate" "success_count" kpis;
  kpis ← mean_kpi df income_col "avg_income" "income_count" kpis;
  company_kpi df kpis.

(** *** The KPI row (lines 239-286) *)

Definition dict_get (kpis : gmap string cell) (key : string) : M cell :=
  match kpis !! key with
  | Some v => mret v
  | None => raise KeyError
  end.

Definition has_key (kpis : gmap string cell) (key : string) : bool :=
  bool_decide (key ∈ dom kpis).

Definition int_cell (n : nat) : cell := CInt (Z.of_nat n).

Definition show_kpi_col1 (df_view df_all : nat) : M unit :=
  n_view ← df_len df_view;
  n_all ← df_len df_all;
  st_metric KpiCol1 "Total Responses"
    (Fmt "" (int_cell n_view) "," "")
    (Some (Fmt "of " (int_cell n_all) "," " total")).

Definition show_kpi_col2 (kpis : gmap string cell) : M unit :=
  if has_key kpis "avg_age" then
    avg ← dict_get kpis "avg_age";
    n ← dict_get kpis "age_count";
    st_metric KpiCol2 "Average Age"
      (Fmt "" avg ".1f" " years") (Some (Fmt "" n "" " respondents"))
  else st_metric KpiCol2 "Average Age" (Lit "No data") None.

Definition show_kpi_col3 (kpis : gmap string cell) (df_view : nat) : M unit :=
  if has_key kpis "avg_deliveries" then
    avg ← dict_get kpis "avg_deliveries";
    n ← dict_get kpis "delivery_count";
    st_metric KpiCol3 "Avg Deliveries"
      (Fmt "" avg ".1f" "/day") (Some (Fmt "" n "" " drivers"))
  else if has_key kpis "avg_income" then
    avg ← dict_get kpis "avg_income";
    n ← dict_get kpis "income_count";
    st_metric KpiCol3 "Fixed Monthly Pay"
      (Fmt "" avg ",.0f" " EGP") (Some (Fmt "" n "" " responses"))
  else
    columns ← df_columns df_view;
    st_metric KpiCol3 "Data Coverage"
      (Fmt "" (int_cell (length columns)) "" " questions") None.

Definition show_kpi_col4 (kpis : gmap string cell) (df_view : nat) : M unit :=
  if has_key kpis "success_rate" then
    avg ← dict_get kpis "success_rate";
    n ← dict_get kpis "success_count";
    st_metric KpiCol4 "Success Rate"
      (Fmt "" avg ".1f" "%") (Some (Fmt "" n "" " drivers"))
  else if has_key kpis "unique_companies" then
    n ← dict_get kpis "unique_companies";
    top ← dict_get kpis "top_company";
    st_metric KpiCol4 "Companies"
      (Fmt "" n "" "") (Some (Fmt "Top: " top "" ""))
  else
    answers ← df_notna_count df_view;
    st_metric KpiCol4 "Data Quality"
      (Fmt "" (int_cell answers) "," " answers") None.

(** *** The data summary (lines 291-305) *)

Definition data_summary (df_view df_all : nat) : M unit :=
  n_view ← df_len df_view;
  n_all ← df_len df_all;
  columns ← df_columns df_view;
  st_metric Col1 "Total Records" (Fmt "" (int_cell n_view) "," "") None;;
  st_metric Col1 "Columns" (Fmt "" (int_cell (length columns)) "" "") None;;
  (if negb (Nat.eqb n_view n_all) then
     st_metric Col1 "Filtered Data"
       (Fmt "" (CFloat (inject_Z (Z.of_nat n_view) / inject_Z (Z.of_nat n_all) * 100))
            ".1f" "%") None
   else st_metric Col1 "Filtered Data" (Lit "100%") None);;
  preview ← df_head df_view 3;
  safe_df_preview ← make_display_safe preview;
  st_dataframe Col2 safe_df_preview.

(** *** The guards on the loaded table (lines 157-164) *)

Definition check_data (df_all : nat) : M unit :=
  is_empty ← df_empty df_all;
  (if (is_empty : bool) then st_error NoDataAvailable;; st_stop else mret ());;
  n ← df_len df_all;
  columns ← df_columns df_all;
  if Nat.eqb n 0 || Nat.eqb (length columns) 0
  then st_error InvalidStructure;; st_stop else mret ().

(** *** The dashboard itself (lines 166-309) *)

Definition dashboard (df_all : nat) : M unit :=
  columns ← df_columns df_all;
  df_set_columns df_all (map PyStr.strip columns);;
  df_view ← df_copy df_all;
  kpis ← calculate_kpis df_view;
  show_kpi_col1 df_view df_all;;
  show_kpi_col2 kpis;;
  show_kpi_col3 kpis df_view;;
  show_kpi_col4 kpis df_view;;
  data_summary df_view df_all;;
  st_success DashboardRunning;;
  st_info FeaturesWorking.

(** *** The whole run, once the user is past the password gate *)

Definition main (inp : inputs) : M unit :=
  df_all ← load inp;
  check_data df_all;;
  dashboard df_all.

(** A run starts with no frame and an empty page. *)
Definition start : world := World ∅ [].

Definition run (inp : inputs) : res unit := main inp start.

(** *** Authentication (lines 41-91) *)

(** [st.session_state]: the value under the key ['authenticated'], when
    the key is there. *)
Definition session : Type := option bool.

(** What the user has done to the widgets of the gate: the logout button,
    the submit button of the login form and the password field. *)
Record clicks : Type := Clicks {
  logout_clicked : bool;
  form_submitted : bool;
  pwd_entered : string
}.

Inductive gate_notice : Type :=
  | AccessGranted
  | IncorrectPassword
  | DashboardFeatures.

(** How a part of the script ends: it falls through to the next line,
    or raises the exception of [st.rerun()] or of [st.stop()]. *)
Inductive control : Type := FallThrough | Rerun | Stop.

(** The truth value of a Python string. *)
Definition truthy (s : string) : bool :=
  match s with EmptyString => false | _ => true end.

(** [st.session_state.get('authenticated', False)] *)
Definition session_get (s : session) (default : bool) : bool :=
  match s with
  | Some v => v
  | None => default
  end.

(** Lines 54-58: the logout button. *)
Definition logout_button (PASSWORD : string) (ui : clicks) (s : session)
    : session * control :=
  if truthy PASSWORD && session_get s false then
    if logout_clicked ui then (Some false, Rerun) else (s, FallThrough)
  else (s, FallThrough).

(** Lines 61-75: [login()] shows the form and returns [ok, pwd]. *)
Definition login (ui : clicks) : bool * string :=
  (form_submitted ui, pwd_entered ui).

(** Lines 60-91: the login gate. *)
Definition login_gate (PASSWORD : string) (ui : clicks) (s : session)
    : session * list (level * gate_notice) * control :=
  if truthy PASSWORD then
    let s := match s with
             | None => Some false
             | Some _ => s
             end in
    if negb (session_get s false) then
      let '(ok, pwd) := login ui in
      if ok && String.eqb pwd PASSWORD then
        (Some true, [(StSuccess, AccessGranted)], Rerun)
      else if ok then (s, [(StError, IncorrectPassword)], Stop)
      else (s, [(StInfo, DashboardFeatures)], Stop)
    else (s, [], FallThrough)
  else (s, [], FallThrough).

(** How one run of the whole script ends: with a rerun, stopped at the
    gate, or through the data part (which may itself stop or raise). *)
Inductive ending : Type :=
  | Reran (shown_at_gate : list (level * gate_notice))
  | StoppedAtGate (shown_at_gate : list (level * gate_notice))
  | Dashboard (r : res unit).

(** One run of the script, top to bottom. *)
Definition script (PASSWORD : string) (ui : clicks) (inp : inputs) (s : session)
    : session * ending :=
  match logout_button PASSWORD ui s with
  | (s, Rerun) => (s, Reran [])
  | (s, Stop) => (s, StoppedAtGate [])
  | (s, FallThrough) =>
      match login_gate PASSWORD ui s with
      | (s, notices, Rerun) => (s, Reran notices)
      | (s, notices, Stop) => (s, StoppedAtGate notices)
      | (s, _, FallThrough) => (s, Dashboard (run inp))
      end
  end.

(** After [st.rerun()] the script runs again: the buttons are no longer
    pressed, the other widgets keep their state. *)
Definition released (ui : clicks) : clicks :=
  Clicks false false (pwd_entered ui).

(** One interaction: the script is run, and run again as long as it asks
    for a rerun ([None] when [fuel] runs are not enough). *)
Fixpoint interact (fuel : nat) (PASSWORD : string) (ui : clicks) (inp : inputs)
    (s : session) : option (session * ending) :=
  match fuel with
  | O => None
  | S fuel' =>
      match script PASSWORD ui inp s with
      | (s', Reran _) => interact fuel' PASSWORD (released ui) inp s'
      | done => Some done
      end
  end.

(** A browser session: one interaction after the other, the session
    state carried along. *)
Fixpoint browse (PASSWORD : string) (visits : list (clicks * inputs)) (s : session)
    : session * list ending :=
  match visits with
  | [] => (s, [])
  | (ui, inp) :: visits' =>
      match interact 2 PASSWORD ui inp s with
      | Some (s', e) =>
          let '(s'', es) := browse PASSWORD visits' s' in (s'', e :: es)
      | None => (s, [])
      end
  end.

(** * Properties *)

(** ** Vocabulary *)

Definition world_of {A : Type} (r : res A) : world :=
  match r with
  | Ret _ w | Exc _ w => w
  end.

(** The world with one more element on the page. *)
Definition shown (w : world) (e : element) : world :=
  World (heap w) (page w ++ [e]).

(** The world with a frame stored under a reference. *)
Definition stored (w : world) (r : nat) (f : frame) : world :=
  World (<[r := f]> (heap w)) (page w).

(** [g] applied to the columns labelled [col]. *)
Definition update (col : string) (g : series → series) (f : frame) : frame :=
  map (λ c, if String.eqb (fst c) col then (fst c, g (snd c)) else c) f.

(** [g l] applied to every column, [l] being its label. *)
Definition update_all (g : string → series → series) (f : frame) : frame :=
  map (λ c, (fst c, g (fst c) (snd c))) f.

(** What [make_display_safe] makes of one cell. *)
Definition display_cell (c : cell) : cell :=
  let t := str_of_cell c in
  CStr (if String.eqb t "nan" then "" else if String.eqb t "<NA>" then "" else t).

(** What the numeric coercion does to the column labelled [col]. *)
Definition coerce_column (col : string) (s : series) : series :=
  if has_numeric_indicator col then Numeric.to_numeric s else s.

(** What [make_display_safe] makes of a frame. *)
Definition display_frame (f : frame) : frame :=
  update_all (λ _, map display_cell) f.

(** What the upload branch makes of the frame it has read. *)
Definition coerced_frame (f : frame) : frame :=
  update_all coerce_column (update_all (λ _, Series.replace "nan" CNone) f).

(** A computation that only looks at a frame: its result or its exception. *)
Definition outcome {A : Type} (x : exn + A) : M A := λ w,
  match x with
  | inr a => Ret a w
  | inl e => Exc e w
  end.

Definition and_then {A B : Type} (x : exn + A) (k : A → exn + B) : exn + B :=
  match x with
  | inr a => k a
  | inl e => inl e
  end.

(** [mean_kpi] as a function of the frame [df] refers to. *)
Definition mean_kpi_of (f : frame) (col avg_key count_key : string)
    (kpis : gmap string cell) : exn + gmap string cell :=
  match Frame.select col f with
  | [] => inr kpis
  | [s] =>
      let valid := Series.dropna s in
      if (0 <? length valid)%nat then
        match Series.mean valid with
        | Some avg =>
            inr (<[count_key := int_cell (length valid)]> (<[avg_key := avg]> kpis))
        | None => inl TypeError
        end
      else inr kpis
  | _ => inl DuplicateLabel
  end.

(** The value stored under ["top_company"] for a Company column. *)
Definition top_company (s : series) : cell :=
  match Series.mode s with
  | first :: _ => first
  | [] => CStr "N/A"
  end.

Definition company_kpi_of (f : frame) (kpis : gmap string cell)
    : exn + gmap string cell :=
  match Frame.select company_col f with
  | [] => inr kpis
  | [s] =>
      inr (<["top_company" := top_company s]>
             (<["unique_companies" := int_cell (Series.nunique (Series.dropna s))]> kpis))
  | _ => inl DuplicateLabel
  end.

Definition calculate_kpis_of (f : frame) : exn + gmap string cell :=
  and_then (mean_kpi_of f age_col "avg_age" "age_count" ∅) (λ kpis,
  and_then (mean_kpi_of f delivery_col "avg_deliveries" "delivery_count" kpis) (λ kpis,
  and_then (mean_kpi_of f success_col "success_rate" "success_count" kpis) (λ kpis,
  and_then (mean_kpi_of f income_col "avg_income" "income_count" kpis) (λ kpis,
  company_kpi_of f kpis)))).

(** The column labelled [col] has a value that is not missing. *)
Definition has_values (f : frame) (col : string) : Prop :=
  ∃ s, Frame.select col f = [s] ∧ Series.dropna s ≠ [].

(** Which keys [calculate_kpis] stores for a frame, as the script has it:
    the two keys of a numeric KPI when its column has a value, the two
    company keys when the Company column exists. *)
Definition kpi_present (f : frame) (key : string) : Prop :=
  ((key = "avg_age" ∨ key = "age_count") ∧ has_values f age_col) ∨
  ((key = "avg_deliveries" ∨ key = "delivery_count") ∧ has_values f delivery_col) ∨
  ((key = "success_rate" ∨ key = "success_count") ∧ has_values f success_col) ∨
  ((key = "avg_income" ∨ key = "income_count") ∧ has_values f income_col) ∨
  ((key = "unique_companies" ∨ key = "top_company") ∧ company_col ∈ Frame.columns f).

(** The metric of the third KPI slot, by priority. *)
Definition third_slot (kpis : gmap string cell) (f : frame) (m : metric) : Prop :=
  match kpis !! "avg_deliveries", kpis !! "avg_income" with
  | Some avg, _ =>
      ∃ n, kpis !! "delivery_count" = Some n ∧
           m = Metric "Avg Deliveries" (Fmt "" avg ".1f" "/day")
                      (Some (Fmt "" n "" " drivers"))
  | None, Some avg =>
      ∃ n, kpis !! "income_count" = Some n ∧
           m = Metric "Fixed Monthly Pay" (Fmt "" avg ",.0f" " EGP")
                      (Some (Fmt "" n "" " responses"))
  | None, None =>
      m = Metric "Data Coverage"
                 (Fmt "" (int_cell (length (Frame.columns f))) "" " questions") None
  end.

(** The metric of the fourth KPI slot, by priority. *)
Definition fourth_slot (kpis : gmap string cell) (f : frame) (m : metric) : Prop :=
  match kpis !! "success_rate", kpis !! "unique_companies" with
  | Some avg, _ =>
      ∃ n, kpis !! "success_count" = Some n ∧
           m = Metric "Success Rate" (Fmt "" avg ".1f" "%")
                      (Some (Fmt "" n "" " drivers"))
  | None, Some n =>
      ∃ top, kpis !! "top_company" = Some top ∧
             m = Metric "Companies" (Fmt "" n "" "") (Some (Fmt "Top: " top "" ""))
  | None, None =>
      m = Metric "Data Quality"
                 (Fmt "" (int_cell (Frame.notna_count f)) "," " answers") None
  end.

(** The metric of the first KPI slot for a table of [n] rows. *)
Definition total_responses (n : nat) : metric :=
  Metric "Total Responses" (Fmt "" (int_cell n) "," "")
         (Some (Fmt "of " (int_cell n) "," " total")).

(** The metric of the second KPI slot. *)
Definition second_slot (kpis : gmap string cell) (m : metric) : Prop :=
  match kpis !! "avg_age" with
  | Some avg =>
      ∃ n, kpis !! "age_count" = Some n ∧
           m = Metric "Average Age" (Fmt "" avg ".1f" " years")
                      (Some (Fmt "" n "" " respondents"))
  | None => m = Metric "Average Age" (Lit "No data") None
  end.

(** The table as the dashboard sees it: the labels stripped. *)
Definition stripped (f : frame) : frame :=
  Frame.set_columns (map PyStr.strip (Frame.columns f)) f.

(** What the data summary puts on the page for a table. *)
Definition summary_elements (f : frame) : list element :=
  [ShowMetric Col1 (Metric "Total Records" (Fmt "" (int_cell (Frame.len f)) "," "") None);
   ShowMetric Col1 (Metric "Columns" (Fmt "" (int_cell (length (Frame.columns f))) "" "") None);
   ShowMetric Col1 (Metric "Filtered Data" (Lit "100%") None);
   ShowFrame Col2 (display_frame (Frame.head 3 f))].

(** The page of a dashboard that has rendered for a table (labels already
    stripped), after what loading has put on it. *)
Definition dashboard_page (before : list element) (f : frame) (m2 m3 m4 : metric)
    : list element :=
  (before
   ++ [ShowMetric KpiCol1 (total_responses (Frame.len f));
       ShowMetric KpiCol2 m2; ShowMetric KpiCol3 m3; ShowMetric KpiCol4 m4]
   ++ summary_elements f
   ++ [Notice StSuccess DashboardRunning; Notice StInfo FeaturesWorking])%list.

(** The uploader is on the page: the user asked for it, or the sample
    file gave no table. *)
Definition uploader_shown (inp : inputs) : bool :=
  match data_choice inp, default_csv inp with
  | UploadOwn, _ => true
  | UseSample, Some (Some f) => Frame.empty f
  | UseSample, _ => true
  end.

Definition is_notice (e : element) : Prop := ∃ l n, e = Notice l n.

(** The table an uploaded CSV file is loaded as. *)
Definition uploaded_frame (raw : list (string * list string)) : frame :=
  let f := read_csv_frame raw in
  if Frame.empty f then f else coerced_frame f.

(** Where the run stands when it comes to the uploader: [df_all] and the
    world the sample branch has left. *)
Definition before_upload (inp : inputs) : nat * world :=
  match data_choice inp, default_csv inp with
  | UseSample, Some (Some f) =>
      (2%nat, World (<[2%nat := []]> (<[1%nat := f]> {[0%nat := []]}))
                    [Notice StInfo FilesNotFound])
  | UseSample, Some None =>
      (1%nat, World (<[1%nat := []]> {[0%nat := []]})
                    [Notice StWarning SampleIssue; Notice StInfo FilesNotFound])
  | UseSample, None =>
      (0%nat, World {[0%nat := []]} [Notice StInfo FilesNotFound])
  | UploadOwn, _ => (0%nat, World {[0%nat := []]} [])
  end.

(** The same interaction with another content behind the uploaded name. *)
Definition with_content (inp : inputs) (file : upload)
    (other : option (list (string * list string))) : inputs :=
  Inputs (data_choice inp) (default_csv inp) (Some (Upload (name file) other)).

(** Every column of the file has the same number of rows. *)
Definition rectangular (raw : list (string * list string)) : Prop :=
  ∃ rows, Forall (λ column, length (snd column) = rows) raw.

(** What line 139 makes of one cell. *)
Definition replace_nan_cell (c : cell) : cell :=
  match c with
  | CStr t => if String.eqb t "nan" then CNone else c
  | _ => c
  end.

(** ** Example data *)

Definition example_frame : frame :=
  [("Age (Years)", [CFloat 25; CNaN; CInt 30]);
   ("Company", [CStr "B"; CStr "nan"; CNone]);
   ("Notes", [CNA; CStr "<NA>"; CStr "banana"])].

Definition example_world : world := World {[7%nat := example_frame]} [].



(** An upload whose age column has one field that is not a number. *)
Definition age_fields : list (string * list string) :=
  [("Age (Years)", ["25"; "30"; "abc"; "40"])].

Definition age_file : upload := Upload "survey.csv" (Some age_fields).

Definition age_upload : inputs := Inputs UploadOwn None (Some age_file).

(** An upload with a success-rate column, and no Age column. *)
Definition rate_upload : inputs :=
  Inputs UploadOwn None
    (Some (Upload "survey.csv"
                  (Some [("Approximate delivery success rate (orders deliv...",
                          ["95%"; "80%"])]))).

Definition rate_frame : frame :=
  [("Approximate delivery success rate (orders deliv...", [CStr "95%"; CStr "80%"])].

(** A table with every KPI column. *)
Definition priority_frame : frame :=
  [(delivery_col, [CInt 10; CInt 20; CNaN]);
   (income_col, [CFloat 3000; CNaN; CNaN]);
   (success_col, [CFloat 90; CFloat 95; CNaN]);
   (company_col, [CStr "A"; CStr "B"; CStr "A"])].

Definition priority_world : world := World {[0%nat := priority_frame]} [].

Definition priority_kpis : gmap string cell :=
  <["top_company" := CStr "A"]>
    (<["unique_companies" := CInt 2]>
       (<["income_count" := CInt 1]>
          (<["avg_income" := CFloat 3000]>
             (<["success_count" := CInt 2]>
                (<["success_rate" := CFloat (185 # 2)]>
                   (<["delivery_count" := CInt 2]>
                      (<["avg_deliveries" := CFloat 15]> ∅))))))).

(** A CSV upload with a header and no row. *)
Definition header_only : list (string * list string) :=
  [("Age (Years)", []); ("Company", [])].

Definition header_only_upload : inputs :=
  Inputs UploadOwn None (Some (Upload "survey.csv" (Some header_only))).

(** A spreadsheet upload, after the sample file was not found. *)
Definition excel_file : upload := Upload "survey.xlsx" None.

Definition excel_upload : inputs := Inputs UseSample None (Some excel_file).

(** ** Vocabulary for the gate *)

(** The session counts as logged in. *)
Definition logged_in (s : session) : bool := session_get s false.

(** The ending shows the data part of the script. *)
Definition is_dashboard (e : ending) : Prop := ∃ r, e = Dashboard r.

(** The visit submits the login form with exactly the password. *)
Definition submits (PASSWORD : string) (visit : clicks * inputs) : Prop :=
  form_submitted (fst visit) = true ∧ pwd_entered (fst visit) = PASSWORD.

(** ** Example data for the gate *)

Definition no_clicks : clicks := Clicks false false "".

Definition wrong_guess : clicks := Clicks false true "Secret".

Definition right_guess : clicks := Clicks false true "secret".

Definition logout_click : clicks := Clicks true false "".

(** What one interaction comes to, case by case. *)
Definition visit_outcome (PASSWORD : string) (ui : clicks) (s : session)
    (data : res unit) : session * ending :=
  if truthy PASSWORD then
    if logged_in s then
      if logout_clicked ui
      then (Some false, StoppedAtGate [(StInfo, DashboardFeatures)])
      else (s, Dashboard data)
    else if form_submitted ui && String.eqb (pwd_entered ui) PASSWORD
         then (Some true, Dashboard data)
    else if form_submitted ui
         then (Some false, StoppedAtGate [(StError, IncorrectPassword)])
    else (Some false, StoppedAtGate [(StInfo, DashboardFeatures)])
  else (s, Dashboard data).

(** The visit submits the login form with something else than the
    password. *)
Definition guesses_wrong (PASSWORD : string) (visit : clicks * inputs) : Prop :=
  form_submitted (fst visit) = true ∧ pwd_entered (fst visit) ≠ PASSWORD.

Definition rejected : ending := StoppedAtGate [(StError, IncorrectPassword)].

Definition login_prompt : ending := StoppedAtGate [(StInfo, DashboardFeatures)].

(** ** Vocabulary for loading and rendering *)

(** The sample file gives a table with rows and columns. *)
Definition sample_loads (inp : inputs) (f : frame) : Prop :=
  data_choice inp = UseSample ∧ default_csv inp = Some (Some f) ∧
  Frame.empty f = false.

(** The same interaction with something else in the uploader. *)
Definition with_upload (inp : inputs) (up : option upload) : inputs :=
  Inputs (data_choice inp) (default_csv inp) up.

(** The notices of the loading part. *)
Definition from_loading (e : element) : bool :=
  match e with
  | Notice _ (SampleLoaded _ _) | Notice _ SampleIssue | Notice _ FilesNotFound
  | Notice _ ExcelNotSupported | Notice _ (FileUploaded _ _)
  | Notice _ PleaseUpload => true
  | _ => false
  end.

(** The element is a metric or a table. *)
Definition is_widget (e : element) : bool :=
  match e with
  | Notice _ _ => false
  | _ => true
  end.



(** One of the four numeric KPI columns holds a text cell. *)
Definition text_in_kpi_column (f : frame) : Prop :=
  ∃ col s t,
    col ∈ [age_col; delivery_col; success_col; income_col] ∧
    Frame.select col f = [s] ∧ CStr t ∈ s.

(** No KPI label is carried by two columns. *)
Definition kpi_labels_unique (f : frame) : Prop :=
  ∀ col, col ∈ [age_col; delivery_col; success_col; income_col; company_col] →
         (length (Frame.select col f) ≤ 1)%nat.




(** ** Example data for loading and rendering *)

(** A visit on which the sample file is read into [example_frame]. *)
Definition sample_visit : inputs := Inputs UseSample (Some (Some example_frame)) None.

(** The uploader chosen, and no file in it. *)
Definition no_file : inputs := Inputs UploadOwn None None.

(** The sample file is there, and reading it raises. *)
Definition broken_sample : inputs := Inputs UseSample (Some None) None.

(** An uploaded file on which the CSV reader raises. *)
Definition broken_file : upload := Upload "survey.csv" None.

Definition broken_upload : inputs := Inputs UploadOwn None (Some broken_file).

(** An upload with blanks around the age header, an empty field, a field
    that is not a number, and a text column with a field the reader takes
    for a missing value. *)
Definition mixed_fields : list (string * list string) :=
  [(" Age (Years) ", ["25"; ""; "abc"; "40"]);
   ("Company", ["A"; "NA"; "B"; "A"])].

Definition mixed_file : upload := Upload "survey.csv" (Some mixed_fields).

Definition mixed_upload : inputs := Inputs UploadOwn None (Some mixed_file).



(** The login form submitted with nothing typed. *)
Definition empty_guess : clicks := Clicks false true "".

(** ** The library functions on small inputs *)

Example indicator_in_kpi_labels :
  map has_numeric_indicator [age_col; delivery_col; success_col; income_col; company_col]
  = [true; true; false; false; false].
Proof. reflexivity. Qed.

Example endswith_is_case_sensitive :
  PyStr.endswith "data.csv" ".csv" = true ∧ PyStr.endswith "DATA.CSV" ".csv" = false.
Proof. split; reflexivity. Qed.

Example strip_label : PyStr.strip "  Age (Years) " = "Age (Years)".
Proof. reflexivity. Qed.

Example to_numeric_ages :
  Numeric.to_numeric (map read_field ["25"; "30"; "abc"; "40"])
  = [CFloat 25; CFloat 30; CNaN; CFloat 40] ∧
  Numeric.to_numeric (map read_field ["25"; "30"]) = [CInt 25; CInt 30].
Proof. split; reflexivity. Qed.

Example company_counts :
  let companies := [CStr "A"; CStr "B"; CStr "A"; CStr "C"; CStr "A"] in
  Series.nunique (Series.dropna companies) = 3%nat ∧
  Series.mode companies = [CStr "A"].
Proof. split; reflexivity. Qed.

Example mode_ties_are_sorted :
  Series.mode [CStr "b"; CStr "a"; CNaN] = [CStr "a"; CStr "b"] ∧
  Series.mode [CNaN; CNone] = [].
Proof. split; reflexivity. Qed.

Example mean_of_text_raises :
  Series.mean [CFloat 25; CNaN; CInt 30] = Some (CFloat (55 # 2)) ∧
  Series.mean [CStr "95%"; CStr "80%"] = None.
Proof. split; reflexivity. Qed.

Example display_cells :
  map display_cell [CNaN; CNA; CNone; CStr "nan"; CStr "banana"; CInt 3]
  = [CStr ""; CStr ""; CStr "None"; CStr ""; CStr "banana"; CStr "3"].
Proof. reflexivity. Qed.

(** ** Running the monad *)

Lemma bind_run {A B : Type} (m : M A) (k : A → M B) (w : world) :
  (m ≫= k) w = match m w with
               | Ret a w' => k a w'
               | Exc e w' => Exc e w'
               end.
Proof. reflexivity. Qed.

Lemma ret_run {A : Type} (a : A) (w : world) : (mret a : M A) w = Ret a w.
Proof. reflexivity. Qed.

Lemma read_run (w : world) (r : nat) (f : frame) :
  heap w !! r = Some f → read r w = Ret f w.
Proof. intros H. unfold read. now rewrite H. Qed.

Lemma alloc_run (w : world) (f : frame) :
  alloc f w = Ret (fresh (dom (heap w))) (stored w (fresh (dom (heap w))) f).
Proof. reflexivity. Qed.

Lemma fresh_unused (w : world) : heap w !! fresh (dom (heap w)) = None.
Proof. apply not_elem_of_dom, is_fresh. Qed.

Lemma fresh_ne (w : world) (r : nat) (f : frame) :
  heap w !! r = Some f → fresh (dom (heap w)) ≠ r.
Proof. intros H E. rewrite <- E, fresh_unused in H. discriminate. Qed.

Lemma stored_same (w : world) (r : nat) (f : frame) :
  heap (stored w r f) !! r = Some f.
Proof. apply lookup_insert_eq. Qed.

Lemma stored_other (w : world) (r r' : nat) (f : frame) :
  r ≠ r' → heap (stored w r f) !! r' = heap w !! r'.
Proof. intros H. now apply lookup_insert_ne. Qed.

Lemma stored_twice (w : world) (r : nat) (f g : frame) :
  stored (stored w r f) r g = stored w r g.
Proof. unfold stored. simpl. now rewrite insert_insert_eq. Qed.

Lemma stored_id (w : world) (r : nat) (f : frame) :
  heap w !! r = Some f → stored w r f = w.
Proof. intros H. destruct w as [h p]. unfold stored. simpl in *. now rewrite insert_id. Qed.

Lemma df_columns_run (w : world) (r : nat) (f : frame) :
  heap w !! r = Some f → df_columns r w = Ret (Frame.columns f) w.
Proof. intros H. unfold df_columns. now rewrite bind_run, (read_run w r f). Qed.

Lemma df_empty_run (w : world) (r : nat) (f : frame) :
  heap w !! r = Some f → df_empty r w = Ret (Frame.empty f) w.
Proof. intros H. unfold df_empty. now rewrite bind_run, (read_run w r f). Qed.

Lemma df_len_run (w : world) (r : nat) (f : frame) :
  heap w !! r = Some f → df_len r w = Ret (Frame.len f) w.
Proof. intros H. unfold df_len. now rewrite bind_run, (read_run w r f). Qed.

Lemma df_notna_count_run (w : world) (r : nat) (f : frame) :
  heap w !! r = Some f → df_notna_count r w = Ret (Frame.notna_count f) w.
Proof. intros H. unfold df_notna_count. now rewrite bind_run, (read_run w r f). Qed.

Lemma df_copy_run (w : world) (r : nat) (f : frame) :
  heap w !! r = Some f →
  df_copy r w = Ret (fresh (dom (heap w))) (stored w (fresh (dom (heap w))) f).
Proof. intros H. unfold df_copy. now rewrite bind_run, (read_run w r f). Qed.

Lemma df_head_run (w : world) (r n : nat) (f : frame) :
  heap w !! r = Some f →
  df_head r n w
  = Ret (fresh (dom (heap w))) (stored w (fresh (dom (heap w))) (Frame.head n f)).
Proof. intros H. unfold df_head. now rewrite bind_run, (read_run w r f). Qed.

Lemma df_getitem_run (w : world) (r : nat) (f : frame) (col : string) :
  heap w !! r = Some f →
  df_getitem r col w = match Frame.select col f with
                       | [] => Exc KeyError w
                       | selected => Ret selected w
                       end.
Proof.
  intros H. unfold df_getitem. rewrite bind_run, (read_run w r f) by done.
  now destruct (Frame.select col f).
Qed.

Lemma df_setitem_run (w : world) (r : nat) (f : frame) (col : string) (v : list series) :
  heap w !! r = Some f →
  df_setitem r col v w = Ret () (stored w r (Frame.assign col v f)).
Proof. intros H. unfold df_setitem. now rewrite bind_run, (read_run w r f). Qed.

Lemma df_set_columns_run (w : world) (r : nat) (f : frame) (labels : list string) :
  heap w !! r = Some f →
  df_set_columns r labels w = Ret () (stored w r (Frame.set_columns labels f)).
Proof. intros H. unfold df_set_columns. now rewrite bind_run, (read_run w r f). Qed.

(** ** Frames: selecting and assigning by label *)

Lemma assign_select (col : string) (g : series → series) (f : frame) :
  Frame.assign col (map g (Frame.select col f)) f = update col g f.
Proof.
  unfold Frame.select, update.
  induction f as [|[l s] f IH]; simpl; [reflexivity|].
  destruct (String.eqb l col); simpl; now rewrite IH.
Qed.

Lemma columns_update (col : string) (g : series → series) (f : frame) :
  Frame.columns (update col g f) = Frame.columns f.
Proof.
  unfold Frame.columns, update. rewrite map_map. apply map_ext.
  intros [l s]. simpl. now destruct (String.eqb l col).
Qed.

Lemma select_nonempty (col : string) (f : frame) :
  col ∈ Frame.columns f → Frame.select col f ≠ [].
Proof.
  unfold Frame.columns, Frame.select.
  induction f as [|[l s] f IH]; simpl; intros H.
  - now apply elem_of_nil in H.
  - destruct (String.eqb_spec l col) as [->|Hne]; simpl; [discriminate|].
    apply elem_of_cons in H as [H|H]; [congruence | now apply IH].
Qed.

(** A loop [for col in labels: df[col] = g(col, df[col])] run on the frame:
    with [g col] idempotent, the columns whose label is met are updated
    once, however often the label is met. *)
Lemma update_loop (g : string → series → series) (labels : list string) :
  (∀ l s, g l (g l s) = g l s) →
  ∀ f, foldl (λ f col, update col (g col) f) f labels
       = map (λ c, if bool_decide (fst c ∈ labels)
                   then (fst c, g (fst c) (snd c)) else c) f.
Proof.
  intros Hidem. induction labels as [|l labels IH]; intros f; simpl.
  - symmetry. rewrite <- (map_id f) at 2. apply map_ext. now intros [k s].
  - rewrite IH. unfold update. rewrite map_map. apply map_ext.
    intros [k s]. simpl.
    destruct (String.eqb_spec k l) as [->|Hne]; simpl.
    + rewrite (bool_decide_eq_true_2 (l ∈ l :: labels)) by apply list_elem_of_here.
      destruct (bool_decide (l ∈ labels)); now rewrite ?Hidem.
    + destruct (bool_decide_reflect (k ∈ labels)) as [Hin|Hnin].
      * rewrite bool_decide_eq_true_2; [reflexivity | now apply list_elem_of_further].
      * rewrite bool_decide_eq_false_2; [reflexivity|].
        intros H. apply elem_of_cons in H as [H|H]; congruence.
Qed.

Lemma update_loop_columns (g : string → series → series) (f : frame) :
  (∀ l s, g l (g l s) = g l s) →
  foldl (λ f col, update col (g col) f) f (Frame.columns f) = update_all g f.
Proof.
  intros Hidem. rewrite update_loop by assumption. unfold update_all.
  apply map_ext_in. intros [k s] Hin. simpl.
  rewrite bool_decide_eq_true_2; [reflexivity|].
  unfold Frame.columns. apply list_elem_of_In, in_map_iff. now exists (k, s).
Qed.

(** ** Loops over the columns of a stored frame *)

Lemma for_each_frame (body : string → M unit) (step : string → frame → frame) (r : nat) :
  (∀ col f w, heap w !! r = Some f → col ∈ Frame.columns f →
              body col w = Ret () (stored w r (step col f))) →
  (∀ col f, Frame.columns (step col f) = Frame.columns f) →
  ∀ labels f w,
    heap w !! r = Some f →
    (∀ l, l ∈ labels → l ∈ Frame.columns f) →
    for_each labels body w
    = Ret () (stored w r (foldl (λ f col, step col f) f labels)).
Proof.
  intros Hbody Hcols. induction labels as [|l labels IH]; intros f w Hf Hin; simpl.
  - now rewrite stored_id.
  - rewrite bind_run, (Hbody l f w Hf) by (apply Hin, list_elem_of_here).
    rewrite (IH (step l f)).
    + now rewrite stored_twice.
    + apply stored_same.
    + intros k Hk. rewrite Hcols. now apply Hin, list_elem_of_further.
Qed.

Lemma getitem_setitem_run (g : series → series) (w : world) (r : nat) (f : frame)
    (col : string) :
  heap w !! r = Some f →
  col ∈ Frame.columns f →
  (selected ← df_getitem r col; df_setitem r col (map g selected)) w
  = Ret () (stored w r (update col g f)).
Proof.
  intros Hf Hin. rewrite bind_run, (df_getitem_run w r f) by done.
  pose proof (select_nonempty col f Hin) as Hne.
  destruct (Frame.select col f) as [|s sel] eqn:E; [done|].
  rewrite (df_setitem_run w r f) by done. now rewrite <- E, assign_select.
Qed.

Lemma try_except_ret {A : Type} (body handler : M A) (w w' : world) (a : A) :
  body w = Ret a w' → try_except body handler w = Ret a w'.
Proof. intros H. unfold try_except. now rewrite H. Qed.

(** The three loops of the script, each as one map over the frame. *)

Lemma replace_idempotent (old : string) (new : cell) (s : series) :
  new ≠ CStr old →
  Series.replace old new (Series.replace old new s) = Series.replace old new s.
Proof.
  intros Hnew. unfold Series.replace. rewrite map_map. apply map_ext.
  intros [t| | | | |]; try reflexivity.
  destruct (String.eqb_spec t old) as [->|Hne].
  - destruct new as [u| | | | |]; try reflexivity.
    destruct (String.eqb_spec u old) as [->|_]; [congruence | reflexivity].
  - now rewrite (proj2 (String.eqb_neq t old)).
Qed.

Lemma replace_nan_run (w : world) (r : nat) (f : frame) :
  heap w !! r = Some f →
  replace_nan r w
  = Ret () (stored w r (update_all (λ _, Series.replace "nan" CNone) f)).
Proof.
  intros Hf. unfold replace_nan.
  rewrite bind_run, (df_columns_run w r f) by done.
  rewrite (for_each_frame _ (λ col, update col (Series.replace "nan" CNone)) r)
    with (f := f); try done.
  - now rewrite (update_loop_columns (λ _, Series.replace "nan" CNone))
      by (intros; now apply replace_idempotent).
  - intros col g w' Hg Hin. now apply getitem_setitem_run.
  - intros. apply columns_update.
Qed.

Lemma to_numeric_cell_fixed (c : cell) :
  Numeric.to_numeric_cell (Numeric.to_numeric_cell c) = Numeric.to_numeric_cell c.
Proof.
  destruct c as [t| | | | |]; simpl; try reflexivity.
  destruct (Numeric.parse_number t) as [[z|q]|]; reflexivity.
Qed.

Lemma to_numeric_cell_as_float (c : cell) :
  Numeric.to_numeric_cell (Numeric.as_float (Numeric.to_numeric_cell c))
  = Numeric.as_float (Numeric.to_numeric_cell c).
Proof.
  destruct c as [t| | | | |]; simpl; try reflexivity.
  destruct (Numeric.parse_number t) as [[z|q]|]; reflexivity.
Qed.

Lemma as_float_not_int (s : series) :
  s ≠ [] → forallb Numeric.is_int (map Numeric.as_float s) = false.
Proof. destruct s as [|[t|z|q| | |] s]; intros H; simpl; congruence. Qed.

Lemma as_float_fixed (c : cell) :
  Numeric.as_float (Numeric.as_float c) = Numeric.as_float c.
Proof. now destruct c. Qed.

Lemma to_numeric_idempotent (s : series) :
  Numeric.to_numeric (Numeric.to_numeric s) = Numeric.to_numeric s.
Proof.
  unfold Numeric.to_numeric.
  destruct (forallb Numeric.is_int (map Numeric.to_numeric_cell s)) eqn:E.
  - rewrite map_map, (map_ext _ _ to_numeric_cell_fixed), E. reflexivity.
  - assert (H : map Numeric.to_numeric_cell
                 (map Numeric.as_float (map Numeric.to_numeric_cell s))
               = map Numeric.as_float (map Numeric.to_numeric_cell s)).
    { rewrite !map_map. apply map_ext, to_numeric_cell_as_float. }
    rewrite H, as_float_not_int.
    + rewrite (map_map Numeric.as_float). apply map_ext, as_float_fixed.
    + intros Hnil. now rewrite Hnil in E.
Qed.

Lemma coerce_column_idempotent (col : string) (s : series) :
  coerce_column col (coerce_column col s) = coerce_column col s.
Proof.
  unfold coerce_column. destruct (has_numeric_indicator col); [|reflexivity].
  apply to_numeric_idempotent.
Qed.

Lemma update_same (col : string) (f : frame) : update col (λ s, s) f = f.
Proof.
  unfold update. rewrite <- (map_id f) at 2. apply map_ext.
  intros [l s]. simpl. now destruct (String.eqb l col).
Qed.

Lemma coerce_numeric_run (w : world) (r : nat) (f : frame) :
  heap w !! r = Some f →
  coerce_numeric r w = Ret () (stored w r (update_all coerce_column f)).
Proof.
  intros Hf. unfold coerce_numeric.
  rewrite bind_run, (df_columns_run w r f) by done.
  rewrite (for_each_frame _ (λ col, update col (coerce_column col)) r)
    with (f := f); try done.
  - now rewrite (update_loop_columns coerce_column)
      by apply coerce_column_idempotent.
  - intros col g w' Hg Hin. unfold coerce_column.
    destruct (has_numeric_indicator col).
    + apply try_except_ret. now apply getitem_setitem_run.
    + rewrite update_same, stored_id; done.
  - intros. apply columns_update.
Qed.

Lemma display_series_cells (s : series) :
  Series.replace "<NA>" (CStr "") (Series.replace "nan" (CStr "") (astype_str s))
  = map display_cell s.
Proof.
  unfold Series.replace, astype_str. rewrite !map_map. apply map_ext.
  intros c. unfold display_cell. simpl.
  destruct (String.eqb_spec (str_of_cell c) "nan") as [E|E]; [reflexivity|].
  now destruct (String.eqb (str_of_cell c) "<NA>").
Qed.

Lemma display_cell_idempotent (c : cell) :
  display_cell (display_cell c) = display_cell c.
Proof.
  unfold display_cell. simpl.
  destruct (String.eqb_spec (str_of_cell c) "nan") as [E|E]; [reflexivity|].
  destruct (String.eqb_spec (str_of_cell c) "<NA>") as [E'|E']; [reflexivity|].
  rewrite (proj2 (String.eqb_neq _ _) E), (proj2 (String.eqb_neq _ _) E').
  reflexivity.
Qed.


Lemma make_display_safe_run (w : world) (df : nat) (f : frame) :
  heap w !! df = Some f →
  make_display_safe df w
  = Ret (fresh (dom (heap w))) (stored w (fresh (dom (heap w))) (display_frame f)).
Proof.
  intros Hf. unfold make_display_safe.
  rewrite bind_run, (df_copy_run w df f) by done.
  set (d := fresh (dom (heap w))). set (w1 := stored w d f).
  assert (Hd : heap w1 !! d = Some f) by apply stored_same.
  rewrite bind_run, (df_columns_run w1 d f) by done.
  rewrite bind_run.
  rewrite (for_each_frame _ (λ col, update col (map display_cell)) d)
    with (f := f); try done.
  - rewrite (update_loop_columns (λ _, map display_cell)).
    + unfold w1. now rewrite stored_twice.
    + intros _ s. rewrite map_map. apply map_ext, display_cell_idempotent.
  - intros col g w' Hg Hin. apply try_except_ret.
    rewrite <- (getitem_setitem_run (map display_cell) w' d g col Hg Hin).
    rewrite !bind_run. destruct (df_getitem d col w') as [sel w''|e w'']; [|reflexivity].
    f_equal. apply map_ext. intros s. apply display_series_cells.
  - intros. apply columns_update.
Qed.

(** ** [calculate_kpis] reads the frame and nothing else *)

Lemma select_absent (col : string) (f : frame) :
  col ∉ Frame.columns f → Frame.select col f = [].
Proof.
  unfold Frame.columns, Frame.select.
  induction f as [|[l s] f IH]; simpl; intros H; [reflexivity|].
  apply not_elem_of_cons in H as [Hne Hnin].
  destruct (String.eqb_spec l col) as [->|_]; [congruence | now apply IH].
Qed.

Lemma select_present (col : string) (f : frame) :
  col ∈ Frame.columns f ↔ Frame.select col f ≠ [].
Proof.
  split; [apply select_nonempty|]. intros H.
  destruct (decide (col ∈ Frame.columns f)) as [Hin|Hnin]; [assumption|].
  now apply select_absent in Hnin.
Qed.

Lemma df_series_run (w : world) (df : nat) (f : frame) (col : string) :
  heap w !! df = Some f →
  df_series df col w = match Frame.select col f with
                       | [] => Exc KeyError w
                       | [s] => Ret s w
                       | _ => Exc DuplicateLabel w
                       end.
Proof.
  intros Hf. unfold df_series. rewrite bind_run, (df_getitem_run w df f) by done.
  now destruct (Frame.select col f) as [|s [|s' sel]].
Qed.

Lemma mean_kpi_run (w : world) (df : nat) (f : frame) (col a c : string)
    (kpis : gmap string cell) :
  heap w !! df = Some f →
  mean_kpi df col a c kpis w = outcome (mean_kpi_of f col a c kpis) w.
Proof.
  intros Hf. unfold mean_kpi, mean_kpi_of.
  rewrite bind_run, (df_columns_run w df f) by done.
  destruct (bool_decide_reflect (col ∈ Frame.columns f)) as [Hin|Hnin].
  - rewrite bind_run, (df_series_run w df f) by done.
    apply select_nonempty in Hin.
    destruct (Frame.select col f) as [|s [|s' sel]]; [done| |reflexivity].
    destruct (0 <? length (Series.dropna s))%nat; [|reflexivity].
    now destruct (Series.mean (Series.dropna s)).
  - now rewrite (select_absent col f Hnin).
Qed.

Lemma company_kpi_run (w : world) (df : nat) (f : frame) (kpis : gmap string cell) :
  heap w !! df = Some f →
  company_kpi df kpis w = outcome (company_kpi_of f kpis) w.
Proof.
  intros Hf. unfold company_kpi, company_kpi_of.
  rewrite bind_run, (df_columns_run w df f) by done.
  destruct (bool_decide_reflect (company_col ∈ Frame.columns f)) as [Hin|Hnin].
  - rewrite bind_run, (df_series_run w df f) by done.
    apply select_nonempty in Hin.
    now destruct (Frame.select company_col f) as [|s [|s' sel]].
  - now rewrite (select_absent company_col f Hnin).
Qed.

Lemma outcome_bind {A B : Type} (x : exn + A) (k : A → M B) (k' : A → exn + B)
    (w : world) :
  (∀ a, k a w = outcome (k' a) w) →
  (outcome x ≫= k) w = outcome (and_then x k') w.
Proof. intros H. rewrite bind_run. destruct x as [e|a]; simpl; [reflexivity | apply H]. Qed.

Lemma calculate_kpis_run (w : world) (df : nat) (f : frame) :
  heap w !! df = Some f →
  calculate_kpis df w = outcome (calculate_kpis_of f) w.
Proof.
  intros Hf. unfold calculate_kpis, calculate_kpis_of.
  rewrite bind_run, (mean_kpi_run w df f) by done. rewrite <- bind_run.
  apply outcome_bind. intros k1.
  rewrite bind_run, (mean_kpi_run w df f) by done. rewrite <- bind_run.
  apply outcome_bind. intros k2.
  rewrite bind_run, (mean_kpi_run w df f) by done. rewrite <- bind_run.
  apply outcome_bind. intros k3.
  rewrite bind_run, (mean_kpi_run w df f) by done. rewrite <- bind_run.
  apply outcome_bind. intros k4.
  now apply company_kpi_run.
Qed.

(** ** The keys of the KPI mapping *)

Lemma and_then_inr {A B : Type} (x : exn + A) (k : A → exn + B) (b : B) :
  and_then x k = inr b → ∃ a, x = inr a ∧ k a = inr b.
Proof. destruct x as [e|a]; simpl; [discriminate | eauto]. Qed.

Lemma mean_kpi_of_inr (f : frame) (col a c : string) (k k' : gmap string cell) :
  mean_kpi_of f col a c k = inr k' →
  (¬ has_values f col ∧ k' = k) ∨
  (∃ s avg, Frame.select col f = [s] ∧ Series.dropna s ≠ [] ∧
            Series.mean (Series.dropna s) = Some avg ∧
            k' = <[c := int_cell (length (Series.dropna s))]> (<[a := avg]> k)).
Proof.
  unfold mean_kpi_of, has_values.
  destruct (Frame.select col f) as [|s [|s' sel]]; [| |discriminate].
  - intros [= <-]. left. split; [|reflexivity]. now intros (s & ? & _).
  - destruct (Series.dropna s) as [|v valid] eqn:E; simpl.
    + intros [= <-]. left. split; [|reflexivity].
      intros (s0 & [= <-] & H). now rewrite E in H.
    + destruct (Series.mean (v :: valid)) as [avg|] eqn:Em; [|discriminate].
      intros [= <-]. right. exists s, avg. now rewrite E.
Qed.

Lemma mean_kpi_of_keys (f : frame) (col a c : string) (k k' : gmap string cell) :
  mean_kpi_of f col a c k = inr k' →
  ∀ key, is_Some (k' !! key)
         ↔ is_Some (k !! key) ∨ ((key = a ∨ key = c) ∧ has_values f col).
Proof.
  intros H key. apply mean_kpi_of_inr in H as [[Hno ->]|(s & avg & Hs & Hv & _ & ->)].
  - tauto.
  - assert (Hhas : has_values f col) by (now exists s).
    destruct (decide (key = c)) as [->|Hc].
    + rewrite lookup_insert_eq. split; [intros _; right; tauto | eauto].
    + rewrite lookup_insert_ne by congruence.
      destruct (decide (key = a)) as [->|Ha].
      * rewrite lookup_insert_eq. split; [intros _; right; tauto | eauto].
      * rewrite lookup_insert_ne by congruence. tauto.
Qed.

Lemma company_kpi_of_inr (f : frame) (k k' : gmap string cell) :
  company_kpi_of f k = inr k' →
  ((company_col ∉ Frame.columns f) ∧ k' = k) ∨
  (∃ s, Frame.select company_col f = [s] ∧
        k' = <["top_company" := top_company s]>
               (<["unique_companies" := int_cell (Series.nunique (Series.dropna s))]> k)).
Proof.
  unfold company_kpi_of.
  destruct (Frame.select company_col f) as [|s [|s' sel]] eqn:E; [| |discriminate].
  - intros [= <-]. left. split; [|reflexivity].
    intros Hin. now apply select_present in Hin.
  - intros [= <-]. right. now exists s.
Qed.

Lemma company_kpi_of_keys (f : frame) (k k' : gmap string cell) :
  company_kpi_of f k = inr k' →
  ∀ key, is_Some (k' !! key)
         ↔ is_Some (k !! key)
           ∨ ((key = "unique_companies" ∨ key = "top_company")
              ∧ company_col ∈ Frame.columns f).
Proof.
  intros H key. apply company_kpi_of_inr in H as [[Hno ->]|(s & Hs & ->)].
  - tauto.
  - assert (Hin : company_col ∈ Frame.columns f).
    { apply select_present. now rewrite Hs. }
    destruct (decide (key = "top_company")) as [->|Hc].
    + rewrite lookup_insert_eq. split; [intros _; right; tauto | eauto].
    + rewrite lookup_insert_ne by congruence.
      destruct (decide (key = "unique_companies")) as [->|Ha].
      * rewrite lookup_insert_eq. split; [intros _; right; tauto | eauto].
      * rewrite lookup_insert_ne by congruence. tauto.
Qed.

Lemma calculate_kpis_of_keys (f : frame) (kpis : gmap string cell) :
  calculate_kpis_of f = inr kpis →
  ∀ key, is_Some (kpis !! key) ↔ kpi_present f key.
Proof.
  unfold calculate_kpis_of. intros H key.
  apply and_then_inr in H as (k1 & H1 & H).
  apply and_then_inr in H as (k2 & H2 & H).
  apply and_then_inr in H as (k3 & H3 & H).
  apply and_then_inr in H as (k4 & H4 & H5).
  rewrite (company_kpi_of_keys f k4 kpis H5 key).
  rewrite (mean_kpi_of_keys f _ _ _ k3 k4 H4 key).
  rewrite (mean_kpi_of_keys f _ _ _ k2 k3 H3 key).
  rewrite (mean_kpi_of_keys f _ _ _ k1 k2 H2 key).
  rewrite (mean_kpi_of_keys f _ _ _ ∅ k1 H1 key).
  rewrite lookup_empty. unfold kpi_present.
  split; [intros H; repeat destruct H as [H|H]; try tauto; now destruct H
         | tauto].
Qed.

(** ** The claims about [calculate_kpis] and [make_display_safe] *)

Lemma calculate_kpis_keys (w : world) (df : nat) (f : frame)
    (kpis : gmap string cell) (w' : world) :
  heap w !! df = Some f →
  calculate_kpis df w = Ret kpis w' →
  ∀ key, is_Some (kpis !! key) ↔ kpi_present f key.
Proof.
  intros Hf Hrun. rewrite (calculate_kpis_run w df f Hf) in Hrun.
  destruct (calculate_kpis_of f) as [e|k] eqn:E; simpl in Hrun; [discriminate|].
  injection Hrun as -> ->. now apply calculate_kpis_of_keys.
Qed.



(** C9.  [calculate_kpis] and [make_display_safe] leave the table they
    are given as it was: the KPI computation leaves the whole store and
    the page untouched, whether it returns or raises, and the display
    transform writes only to a copy it has just made, under a reference
    that was not in use. *)
Theorem loaded_table_not_mutated (w : world) (df : nat) (T : frame) :
  heap w !! df = Some T →
  world_of (calculate_kpis df w) = w ∧
  ∃ (copy : nat) (w' : world),
    make_display_safe df w = Ret copy w' ∧
    copy ≠ df ∧
    heap w !! copy = None ∧
    heap w' !! df = Some T ∧
    (∀ r, r ≠ copy → heap w' !! r = heap w !! r) ∧
    page w' = page w.
Proof.
  intros Hf. split.
  - rewrite (calculate_kpis_run w df T Hf). now destruct (calculate_kpis_of T).
  - exists (fresh (dom (heap w))),
           (stored w (fresh (dom (heap w))) (display_frame T)).
    split; [now apply make_display_safe_run|].
    split; [now apply (fresh_ne w df T)|].
    split; [apply fresh_unused|].
    split. { rewrite stored_other; [assumption | now apply (fresh_ne w df T)]. }
    split; [|reflexivity].
    intros r Hr. now apply stored_other.
Qed.

(** ** The KPI row *)

Lemma has_key_lookup (kpis : gmap string cell) (key : string) :
  has_key kpis key = match kpis !! key with Some _ => true | None => false end.
Proof.
  unfold has_key. destruct (kpis !! key) as [v|] eqn:E.
  - apply bool_decide_eq_true_2, elem_of_dom. eauto.
  - apply bool_decide_eq_false_2. rewrite elem_of_dom, E. now intros [? ?].
Qed.

Lemma dict_get_run (kpis : gmap string cell) (key : string) (v : cell) (w : world) :
  kpis !! key = Some v → dict_get kpis key w = Ret v w.
Proof. intros H. unfold dict_get. now rewrite H. Qed.

Ltac key_cases H :=
  unfold kpi_present in H;
  repeat match type of H with
         | _ ∨ _ => destruct H as [H|H]
         | _ ∧ _ => let E := fresh "E" in destruct H as [E H]
         end;
  repeat match goal with
         | E : _ = _ ∨ _ = _ |- _ => destruct E as [E|E]
         end;
  try discriminate.

Lemma count_key_present (f : frame) (kpis : gmap string cell) (avg_key count_key col : string) :
  calculate_kpis_of f = inr kpis →
  (avg_key, count_key, col) ∈
    [("avg_age", "age_count", age_col);
     ("avg_deliveries", "delivery_count", delivery_col);
     ("success_rate", "success_count", success_col);
     ("avg_income", "income_count", income_col)] →
  is_Some (kpis !! avg_key) → is_Some (kpis !! count_key) ∧ has_values f col.
Proof.
  intros Hk Hin Havg.
  pose proof (calculate_kpis_of_keys f kpis Hk) as Hkeys.
  apply Hkeys in Havg. rewrite (Hkeys count_key). unfold kpi_present.
  repeat (apply elem_of_cons in Hin as [[= -> -> ->]|Hin]; [key_cases Havg; tauto|]).
  now apply elem_of_nil in Hin.
Qed.

Lemma top_key_present (f : frame) (kpis : gmap string cell) :
  calculate_kpis_of f = inr kpis →
  is_Some (kpis !! "unique_companies") → is_Some (kpis !! "top_company").
Proof.
  intros Hk H. pose proof (calculate_kpis_of_keys f kpis Hk) as Hkeys.
  apply Hkeys in H. apply Hkeys. unfold kpi_present. key_cases H; tauto.
Qed.

Lemma show_kpi_col3_run (w : world) (df_view : nat) (f : frame)
    (kpis : gmap string cell) :
  heap w !! df_view = Some f →
  calculate_kpis_of f = inr kpis →
  ∃ m, show_kpi_col3 kpis df_view w = Ret () (shown w (ShowMetric KpiCol3 m)) ∧
       third_slot kpis f m.
Proof.
  intros Hf Hk. unfold show_kpi_col3, third_slot. rewrite !has_key_lookup.
  destruct (kpis !! "avg_deliveries") as [avg|] eqn:E1.
  - destruct (count_key_present f kpis "avg_deliveries" "delivery_count" delivery_col Hk)
      as [[n Hn] _]; [set_solver | eauto |].
    eexists. split; [|exists n; eauto].
    now rewrite bind_run, (dict_get_run _ _ avg), bind_run, (dict_get_run _ _ n).
  - destruct (kpis !! "avg_income") as [avg|] eqn:E2.
    + destruct (count_key_present f kpis "avg_income" "income_count" income_col Hk)
        as [[n Hn] _]; [set_solver | eauto |].
      eexists. split; [|exists n; eauto].
      now rewrite bind_run, (dict_get_run _ _ avg), bind_run, (dict_get_run _ _ n).
    + eexists. split; [|reflexivity].
      now rewrite bind_run, (df_columns_run w df_view f).
Qed.

Lemma show_kpi_col4_run (w : world) (df_view : nat) (f : frame)
    (kpis : gmap string cell) :
  heap w !! df_view = Some f →
  calculate_kpis_of f = inr kpis →
  ∃ m, show_kpi_col4 kpis df_view w = Ret () (shown w (ShowMetric KpiCol4 m)) ∧
       fourth_slot kpis f m.
Proof.
  intros Hf Hk. unfold show_kpi_col4, fourth_slot. rewrite !has_key_lookup.
  destruct (kpis !! "success_rate") as [avg|] eqn:E1.
  - destruct (count_key_present f kpis "success_rate" "success_count" success_col Hk)
      as [[n Hn] _]; [set_solver | eauto |].
    eexists. split; [|exists n; eauto].
    now rewrite bind_run, (dict_get_run _ _ avg), bind_run, (dict_get_run _ _ n).
  - destruct (kpis !! "unique_companies") as [n|] eqn:E2.
    + destruct (top_key_present f kpis Hk) as [top Htop]; [eauto|].
      eexists. split; [|exists top; eauto].
      now rewrite bind_run, (dict_get_run _ _ n), bind_run, (dict_get_run _ _ top).
    + eexists. split; [|reflexivity].
      now rewrite bind_run, (df_notna_count_run w df_view f).
Qed.


(** ** The run after loading *)

Lemma columns_length (f : frame) : length (Frame.columns f) = length f.
Proof. unfold Frame.columns. apply length_map. Qed.

Lemma check_data_run (w : world) (df_all : nat) (T : frame) :
  heap w !! df_all = Some T →
  check_data df_all w
  = if Frame.empty T
    then Exc StopException (shown w (Notice StError NoDataAvailable))
    else Ret () w.
Proof.
  intros Hf. unfold check_data.
  rewrite bind_run, (df_empty_run w df_all T) by done. cbv beta iota.
  destruct (Frame.empty T) eqn:E; [reflexivity|].
  rewrite bind_run, ret_run. cbv beta iota.
  rewrite bind_run, (df_len_run w df_all T) by done. cbv beta iota.
  rewrite bind_run, (df_columns_run w df_all T) by done. cbv beta iota.
  unfold Frame.empty in E. now rewrite columns_length, E.
Qed.

Lemma stripped_len (f : frame) : Frame.len (stripped f) = Frame.len f.
Proof. unfold stripped. now destruct f as [|[l s] f]. Qed.

Lemma show_kpi_col1_run (w : world) (df_view df_all : nat) (T : frame) :
  heap w !! df_view = Some T →
  heap w !! df_all = Some T →
  show_kpi_col1 df_view df_all w
  = Ret () (shown w (ShowMetric KpiCol1 (total_responses (Frame.len T)))).
Proof.
  intros Hv Ha. unfold show_kpi_col1.
  now rewrite bind_run, (df_len_run w df_view T), bind_run, (df_len_run w df_all T).
Qed.

Lemma show_kpi_col2_run (w : world) (f : frame) (kpis : gmap string cell) :
  calculate_kpis_of f = inr kpis →
  ∃ m, show_kpi_col2 kpis w = Ret () (shown w (ShowMetric KpiCol2 m)) ∧
       second_slot kpis m.
Proof.
  intros Hk. unfold show_kpi_col2, second_slot. rewrite has_key_lookup.
  destruct (kpis !! "avg_age") as [avg|] eqn:E1.
  - destruct (count_key_present f kpis "avg_age" "age_count" age_col Hk)
      as [[n Hn] _]; [set_solver | eauto |].
    eexists. split; [|exists n; eauto].
    now rewrite bind_run, (dict_get_run _ _ avg), bind_run, (dict_get_run _ _ n).
  - eexists. split; reflexivity.
Qed.

Lemma data_summary_run (w : world) (df_view df_all : nat) (T : frame) :
  heap w !! df_view = Some T →
  heap w !! df_all = Some T →
  ∃ w', data_summary df_view df_all w = Ret () w' ∧
        page w' = (page w ++ summary_elements T)%list.
Proof.
  intros Hv Ha. unfold data_summary.
  rewrite bind_run, (df_len_run w df_view T), bind_run, (df_len_run w df_all T) by done.
  rewrite bind_run, (df_columns_run w df_view T) by done.
  rewrite Nat.eqb_refl. simpl negb. cbv iota.
  do 3 (rewrite bind_run; unfold st_metric at 1, show at 1).
  rewrite bind_run.
  match goal with |- context [df_head df_view 3 ?w1] =>
    set (w3 := w1);
    rewrite (df_head_run w3 df_view 3 T) by exact Hv
  end.
  rewrite bind_run.
  match goal with |- context [make_display_safe ?r ?w1] =>
    set (w4 := w1); set (preview := r);
    rewrite (make_display_safe_run w4 preview (Frame.head 3 T))
      by apply stored_same
  end.
  unfold st_dataframe. rewrite bind_run.
  match goal with |- context [read ?r ?w1] =>
    rewrite (read_run w1 r (display_frame (Frame.head 3 T))) by apply stored_same
  end.
  eexists. split; [reflexivity|].
  simpl. rewrite <- !app_assoc. reflexivity.
Qed.

Lemma dashboard_run (w : world) (df_all : nat) (T : frame) :
  heap w !! df_all = Some T →
  match calculate_kpis_of (stripped T) with
  | inl e => ∃ w', dashboard df_all w = Exc e w' ∧ page w' = page w
  | inr kpis =>
      ∃ w' m2 m3 m4,
        dashboard df_all w = Ret () w' ∧
        second_slot kpis m2 ∧
        third_slot kpis (stripped T) m3 ∧
        fourth_slot kpis (stripped T) m4 ∧
        page w' = dashboard_page (page w) (stripped T) m2 m3 m4
  end.
Proof.
  intros Hf. unfold dashboard.
  rewrite bind_run, (df_columns_run w df_all T) by done. cbv beta iota.
  rewrite bind_run, (df_set_columns_run w df_all T) by done. cbv beta iota.
  fold (stripped T). set (w2 := stored w df_all (stripped T)).
  assert (Ha2 : heap w2 !! df_all = Some (stripped T)) by apply stored_same.
  rewrite bind_run, (df_copy_run w2 df_all (stripped T)) by done. cbv beta iota.
  set (df_view := fresh (dom (heap w2))).
  set (w3 := stored w2 df_view (stripped T)).
  assert (Hv : heap w3 !! df_view = Some (stripped T)) by apply stored_same.
  assert (Ha : heap w3 !! df_all = Some (stripped T)).
  { unfold w3. rewrite stored_other; [assumption|]. now apply (fresh_ne w2 df_all (stripped T)). }
  rewrite bind_run, (calculate_kpis_run w3 df_view (stripped T)) by done.
  destruct (calculate_kpis_of (stripped T)) as [e|kpis] eqn:Ek; simpl outcome; cbv beta iota.
  { eexists. split; reflexivity. }
  rewrite bind_run, (show_kpi_col1_run w3 df_view df_all (stripped T)) by done.
  cbv beta iota.
  rewrite bind_run.
  match goal with |- context [show_kpi_col2 kpis ?w0] => set (w4 := w0) end.
  destruct (show_kpi_col2_run w4 (stripped T) kpis Ek) as (m2 & Hrun2 & H2).
  rewrite Hrun2. cbv beta iota.
  rewrite bind_run.
  match goal with |- context [show_kpi_col3 kpis df_view ?w0] => set (w5 := w0) end.
  destruct (show_kpi_col3_run w5 df_view (stripped T) kpis Hv Ek) as (m3 & Hrun3 & H3).
  rewrite Hrun3. cbv beta iota.
  rewrite bind_run.
  match goal with |- context [show_kpi_col4 kpis df_view ?w0] => set (w6 := w0) end.
  destruct (show_kpi_col4_run w6 df_view (stripped T) kpis Hv Ek) as (m4 & Hrun4 & H4).
  rewrite Hrun4. cbv beta iota.
  rewrite bind_run.
  match goal with |- context [data_summary df_view df_all ?w0] => set (w7 := w0) end.
  destruct (data_summary_run w7 df_view df_all (stripped T) Hv Ha) as (w8 & Hrun & Hpage).
  rewrite Hrun. cbv beta iota.
  eexists _, m2, m3, m4. split; [reflexivity|].
  repeat (split; [assumption|]).
  unfold dashboard_page. simpl. rewrite Hpage. simpl.
  rewrite <- !app_assoc. reflexivity.
Qed.

Lemma main_run (inp : inputs) (w : world) (df_all : nat) (w1 : world) (T : frame) :
  load inp w = Ret df_all w1 →
  heap w1 !! df_all = Some T →
  main inp w = if Frame.empty T
               then Exc StopException (shown w1 (Notice StError NoDataAvailable))
               else dashboard df_all w1.
Proof.
  intros Hload Hf. unfold main. rewrite bind_run, Hload. cbv beta iota.
  rewrite bind_run, (check_data_run w1 df_all T Hf).
  now destruct (Frame.empty T).
Qed.

(** ** Loading *)

Lemma load_reaches_uploader (inp : inputs) :
  uploader_shown inp = true →
  load inp start = load_upload inp (before_upload inp).1 (before_upload inp).2 ∧
  heap (before_upload inp).2 !! (before_upload inp).1 = Some [] ∧
  Forall is_notice (page (before_upload inp).2).
Proof.
  destruct inp as [[|] [[f|]|] up]; unfold uploader_shown, before_upload; simpl;
    intros Hshown;
    (split; [|split; [reflexivity | repeat constructor; now eexists _, _]]);
    try reflexivity.
  destruct f as [|[l [|c s]] f]; try discriminate; reflexivity.
Qed.

Lemma load_csv_run (w : world) (file : upload) (raw : list (string * list string)) :
  content file = Some raw →
  load_csv file w
  = Ret (fresh (dom (heap w))) (stored w (fresh (dom (heap w))) (uploaded_frame raw)).
Proof.
  intros Hraw. unfold load_csv, pd_read_csv_str, uploaded_frame. rewrite Hraw.
  rewrite bind_run, alloc_run. cbv beta iota.
  set (r := fresh (dom (heap w))). set (f := read_csv_frame raw).
  rewrite bind_run, (df_empty_run _ r f) by apply stored_same. cbv beta iota.
  rewrite bind_run.
  destruct (Frame.empty f); cbv beta iota delta [negb]; [reflexivity|].
  rewrite bind_run, (replace_nan_run _ r f) by apply stored_same. cbv beta iota.
  rewrite stored_twice.
  rewrite (coerce_numeric_run _ r (update_all (λ _, Series.replace "nan" CNone) f))
    by apply stored_same.
  now rewrite stored_twice.
Qed.

Lemma load_upload_csv_run (inp : inputs) (df0 : nat) (w0 : world) (file : upload)
    (raw : list (string * list string)) :
  uploaded_file inp = Some file →
  PyStr.endswith (name file) ".csv" = true →
  content file = Some raw →
  ∃ w1,
    load_upload inp df0 w0 = Ret (fresh (dom (heap w0))) w1 ∧
    heap w1 !! fresh (dom (heap w0)) = Some (uploaded_frame raw) ∧
    page w1 = (page w0 ++
               if Frame.empty (uploaded_frame raw) then []
               else [Notice StSuccess
                       (FileUploaded (Frame.len (uploaded_frame raw))
                                     (length (Frame.columns (uploaded_frame raw))))])%list.
Proof.
  intros Hup Hcsv Hraw. unfold load_upload. rewrite Hup, Hcsv.
  rewrite bind_run, (load_csv_run w0 file raw Hraw). cbv beta iota.
  set (r := fresh (dom (heap w0))). set (f := uploaded_frame raw).
  rewrite bind_run, (df_empty_run _ r f) by apply stored_same. cbv beta iota.
  rewrite bind_run.
  destruct (Frame.empty f); cbv beta iota delta [negb].
  - eexists. split; [reflexivity|]. split; [apply stored_same|].
    simpl. now rewrite app_nil_r.
  - rewrite bind_run, (df_len_run _ r f) by apply stored_same. cbv beta iota.
    rewrite bind_run, (df_columns_run _ r f) by apply stored_same. cbv beta iota.
    eexists. split; [reflexivity|]. split; [apply stored_same | reflexivity].
Qed.

Lemma load_upload_other_run (inp : inputs) (df0 : nat) (w0 : world) (file : upload) :
  uploaded_file inp = Some file →
  PyStr.endswith (name file) ".csv" = false →
  heap w0 !! df0 = Some [] →
  load_upload inp df0 w0 = Ret df0 (shown w0 (Notice StError ExcelNotSupported)).
Proof.
  intros Hup Hcsv Hdf. unfold load_upload. rewrite Hup, Hcsv.
  rewrite bind_run. unfold st_error at 1. rewrite bind_run. unfold show at 1.
  cbv beta iota. rewrite ret_run. cbv beta iota.
  rewrite bind_run, (df_empty_run _ df0 []) by exact Hdf.
  reflexivity.
Qed.

(** ** The claims about a run *)

(** C7.  When the uploader is on the page and the uploaded file has a name
    that does not end in ".csv", loading reports the unsupported format,
    [df_all] is still the empty frame it was created as, and the run stops
    at the empty-data guard; nothing of this depends on what the file
    contains, which is never read. *)
Theorem non_csv_upload_rejected (inp : inputs) (file : upload) :
  uploader_shown inp = true →
  uploaded_file inp = Some file →
  PyStr.endswith (name file) ".csv" = false →
  ∃ (df_all : nat) (w1 : world) (before : list element),
    load inp start = Ret df_all w1 ∧
    heap w1 !! df_all = Some [] ∧
    Forall is_notice before ∧
    page w1 = (before ++ [Notice StError ExcelNotSupported])%list ∧
    run inp = Exc StopException (shown w1 (Notice StError NoDataAvailable)) ∧
    ∀ other, run (with_content inp file other) = run inp.
Proof.
  intros Hshown Hup Hcsv.
  destruct (load_reaches_uploader inp Hshown) as (Hload & Hdf & Hnotices).
  set (df0 := (before_upload inp).1) in *. set (w0 := (before_upload inp).2) in *.
  assert (Hrun : ∀ inp', uploader_shown inp' = true →
                         before_upload inp' = before_upload inp →
                         (∃ file', uploaded_file inp' = Some file' ∧
                                   PyStr.endswith (name file') ".csv" = false) →
                         load inp' start
                         = Ret df0 (shown w0 (Notice StError ExcelNotSupported)) ∧
                         run inp'
                         = Exc StopException
                             (shown (shown w0 (Notice StError ExcelNotSupported))
                                    (Notice StError NoDataAvailable))).
  { intros inp' Hshown' Hsame (file' & Hup' & Hcsv').
    destruct (load_reaches_uploader inp' Hshown') as (Hload' & _ & _).
    rewrite Hsame in Hload'. fold df0 w0 in Hload'.
    rewrite (load_upload_other_run inp' df0 w0 file' Hup' Hcsv' Hdf) in Hload'.
    split; [assumption|]. unfold run.
    now rewrite (main_run inp' start df0 _ [] Hload' Hdf). }
  destruct (Hrun inp Hshown eq_refl) as [Hl Hr]; [eauto|].
  exists df0, (shown w0 (Notice StError ExcelNotSupported)), (page w0).
  repeat (split; [first [assumption | reflexivity]|]).
  intros other. rewrite Hr.
  apply (Hrun (with_content inp file other)).
  - destruct inp as [[|] [[f|]|] up]; assumption.
  - reflexivity.
  - exists (Upload (name file) other). split; [reflexivity | assumption].
Qed.

(** C6.  When loading has finished with a table of zero rows or zero
    columns, the run reports that no data is available and stops there:
    nothing is computed or shown after the error.  A CSV upload that has
    a header but no data row is such a case. *)
Theorem empty_table_halts :
  (∀ (inp : inputs) (df_all : nat) (w1 : world) (T : frame),
     load inp start = Ret df_all w1 →
     heap w1 !! df_all = Some T →
     Frame.len T = 0%nat ∨ Frame.columns T = [] →
     run inp = Exc StopException (shown w1 (Notice StError NoDataAvailable))) ∧
  (∀ (inp : inputs) (file : upload) (raw : list (string * list string)),
     uploader_shown inp = true →
     uploaded_file inp = Some file →
     PyStr.endswith (name file) ".csv" = true →
     content file = Some raw →
     Forall (λ column, snd column = []) raw →
     ∃ (df_all : nat) (w1 : world) (T : frame),
       load inp start = Ret df_all w1 ∧
       heap w1 !! df_all = Some T ∧
       Frame.columns T = map fst raw ∧
       Frame.len T = 0%nat ∧
       Forall is_notice (page w1) ∧
       run inp = Exc StopException (shown w1 (Notice StError NoDataAvailable))).
Proof.
  assert (general : ∀ inp df_all w1 T,
             load inp start = Ret df_all w1 →
             heap w1 !! df_all = Some T →
             Frame.len T = 0%nat ∨ Frame.columns T = [] →
             run inp = Exc StopException (shown w1 (Notice StError NoDataAvailable))).
  { intros inp df_all w1 T Hload Hf Hempty. unfold run.
    rewrite (main_run inp start df_all w1 T Hload Hf).
    replace (Frame.empty T) with true; [reflexivity|].
    unfold Frame.empty. destruct Hempty as [-> | Hc]; [reflexivity|].
    rewrite <- columns_length, Hc. now rewrite orb_true_r. }
  split; [exact general|].
  intros inp file raw Hshown Hup Hcsv Hraw Hrows.
  destruct (load_reaches_uploader inp Hshown) as (Hload & Hdf & Hnotices).
  destruct (load_upload_csv_run inp (before_upload inp).1 (before_upload inp).2
              file raw Hup Hcsv Hraw) as (w1 & Hrun & Hf & Hpage).
  rewrite <- Hload in Hrun.
  assert (Hlen : Frame.len (read_csv_frame raw) = 0%nat).
  { destruct Hrows as [|[l s] raw' Hs _]; [reflexivity|].
    simpl in Hs. subst s. reflexivity. }
  assert (Hemp : Frame.empty (read_csv_frame raw) = true).
  { unfold Frame.empty. now rewrite Hlen. }
  assert (HT : uploaded_frame raw = read_csv_frame raw).
  { unfold uploaded_frame. now rewrite Hemp. }
  rewrite HT in *. rewrite Hemp, app_nil_r in Hpage.
  eexists _, w1, (read_csv_frame raw).
  split; [exact Hrun|]. split; [exact Hf|].
  split. { unfold Frame.columns, read_csv_frame. rewrite map_map. now apply map_ext. }
  split; [exact Hlen|].
  split; [now rewrite Hpage|].
  apply (general inp _ w1 (read_csv_frame raw) Hrun Hf). now left.
Qed.

(** C8.  Whenever the dashboard is rendered, the first KPI slot shows the
    number of rows of the table that was loaded, whatever the other slots
    show; it is the only metric put in that slot. *)
Theorem respondent_count_is_row_count (inp : inputs) (df_all : nat) (w1 : world)
    (T : frame) (w' : world) :
  load inp start = Ret df_all w1 →
  heap w1 !! df_all = Some T →
  run inp = Ret () w' →
  ∃ (rest : list element),
    page w'
    = (page w1
       ++ ShowMetric KpiCol1
            (Metric "Total Responses"
                    (Fmt "" (CInt (Z.of_nat (Frame.len T))) "," "")
                    (Some (Fmt "of " (CInt (Z.of_nat (Frame.len T))) "," " total")))
       :: rest)%list ∧
    ∀ m, ShowMetric KpiCol1 m ∉ rest.
Proof.
  intros Hload Hf Hrun. unfold run in Hrun.
  rewrite (main_run inp start df_all w1 T Hload Hf) in Hrun.
  destruct (Frame.empty T); [discriminate|].
  pose proof (dashboard_run w1 df_all T Hf) as Hdash.
  destruct (calculate_kpis_of (stripped T)) as [e|kpis].
  - destruct Hdash as (w2 & Hexc & _). rewrite Hexc in Hrun. discriminate.
  - destruct Hdash as (w2 & m2 & m3 & m4 & Hret & _ & _ & _ & Hpage).
    rewrite Hret in Hrun. injection Hrun as <-.
    rewrite Hpage. unfold dashboard_page, total_responses, int_cell.
    rewrite stripped_len. eexists. split; [reflexivity|].
    intros m Hin. unfold summary_elements in Hin.
    repeat (apply elem_of_cons in Hin as [Hin|Hin]; [discriminate|]).
    now apply elem_of_nil in Hin.
Qed.

(** ** Cells of an uploaded table *)

Lemma lookup_map {A B : Type} (g : A → B) (l : list A) (i : nat) :
  map g l !! i = g <$> (l !! i).
Proof.
  revert i. induction l as [|x l IH]; intros [|i]; simpl; try reflexivity. apply IH.
Qed.

Lemma update_all_lookup (g : string → series → series) (f : frame) (i : nat)
    (col : string) (s : series) :
  f !! i = Some (col, s) → update_all g f !! i = Some (col, g col s).
Proof.
  unfold update_all, frame in *. intros H. now rewrite lookup_map, H.
Qed.


Lemma read_field_not_nan (t : string) : read_field t ≠ CStr "nan".
Proof.
  unfold read_field. destruct (existsb (String.eqb t) na_values) eqn:E; [discriminate|].
  intros [= ->]. discriminate.
Qed.

(** After [pd.read_csv] no cell is the text "nan", so the replacement of
    lines 138-139 finds nothing to replace. *)
Lemma replace_nan_after_read (fields : list string) :
  Series.replace "nan" CNone (map read_field fields) = map read_field fields.
Proof.
  unfold Series.replace. rewrite map_map. apply map_ext. intros t.
  pose proof (read_field_not_nan t) as H.
  destruct (read_field t) as [u| | | | |]; try reflexivity.
  destruct (String.eqb_spec u "nan") as [->|_]; [congruence | reflexivity].
Qed.

Lemma to_numeric_length (s : series) : length (Numeric.to_numeric s) = length s.
Proof.
  unfold Numeric.to_numeric.
  destruct (forallb _ _); now rewrite ?length_map.
Qed.

Lemma to_numeric_lookup (s : series) (j : nat) (c : cell) :
  s !! j = Some c →
  ∃ c', Numeric.to_numeric s !! j = Some c' ∧
        (c' = Numeric.to_numeric_cell c
         ∨ c' = Numeric.as_float (Numeric.to_numeric_cell c)).
Proof.
  intros H. unfold Numeric.to_numeric.
  unfold series in *.
  destruct (forallb _ _); rewrite ?lookup_map, H; simpl; eauto.
Qed.


Lemma uploaded_column (raw : list (string * list string)) (i : nat) (col : string)
    (fields : list string) :
  rectangular raw →
  raw !! i = Some (col, fields) →
  uploaded_frame raw !! i = Some (col, coerce_column col (map read_field fields)).
Proof.
  intros [rows Hrect] Hi. unfold uploaded_frame. cbv zeta.
  assert (Hf : read_csv_frame raw !! i = Some (col, map read_field fields)).
  { unfold read_csv_frame, frame. now rewrite lookup_map, Hi. }
  destruct (Frame.empty (read_csv_frame raw)) eqn:E.
  - etransitivity; [exact Hf|]. f_equal. f_equal.
    assert (Hnil : fields = []).
    { pose proof (proj1 (Forall_lookup _ _) Hrect i _ Hi) as Hcol. simpl in Hcol.
      destruct raw as [|[l s] raw]; [now rewrite lookup_nil in Hi|].
      apply Forall_cons in Hrect as [Hs _]. simpl in Hs.
      unfold Frame.empty in E. simpl in E. rewrite length_map in E.
      rewrite orb_false_r in E. apply Nat.eqb_eq in E.
      destruct fields; [reflexivity | simpl in Hcol; lia]. }
    subst fields. unfold coerce_column. now destruct (has_numeric_indicator col).
  - unfold coerced_frame.
    rewrite (update_all_lookup _ _ i col (Series.replace "nan" CNone (map read_field fields))).
    + now rewrite replace_nan_after_read.
    + now apply update_all_lookup.
Qed.


(** C10.  The replacement of the upload branch and [make_display_safe]
    compare a cell with "nan" as a whole.  A cell that is exactly the text
    "nan" becomes [None] (a missing value) in the first and the empty text
    in the second; the replacement leaves every other cell as it is, and
    [make_display_safe] leaves every text other than "nan" and "<NA>" as it
    is; so a text that only contains "nan" comes out of both unchanged. *)
Theorem nan_matched_as_whole_cell (w : world) (df : nat) (T : frame) :
  heap w !! df = Some T →
  ∃ (w_up : world) (up : frame) (copy : nat) (w_safe : world) (safe : frame),
    replace_nan df w = Ret () w_up ∧
    heap w_up !! df = Some up ∧
    make_display_safe df w = Ret copy w_safe ∧
    heap w_safe !! copy = Some safe ∧
    ∀ (i : nat) (col : string) (s : series),
      T !! i = Some (col, s) →
      ∃ s_up s_safe,
        up !! i = Some (col, s_up) ∧
        safe !! i = Some (col, s_safe) ∧
        ∀ (j : nat) (c : cell),
          s !! j = Some c →
          ∃ c_up c_safe,
            s_up !! j = Some c_up ∧
            s_safe !! j = Some c_safe ∧
            (c = CStr "nan" → c_up = CNone ∧ isna c_up = true ∧ c_safe = CStr "") ∧
            (c ≠ CStr "nan" → c_up = c) ∧
            (∀ t, c = CStr t → t ≠ "nan" → t ≠ "<NA>" → c_safe = c) ∧
            (∀ t, c = CStr t → PyStr.contains "nan" t = true → t ≠ "nan" →
                  c_up = c ∧ c_safe = c).
Proof.
  intros Hf.
  exists (stored w df (update_all (λ _, Series.replace "nan" CNone) T)),
         (update_all (λ _, Series.replace "nan" CNone) T),
         (fresh (dom (heap w))),
         (stored w (fresh (dom (heap w))) (display_frame T)),
         (display_frame T).
  split; [now apply replace_nan_run|].
  split; [apply stored_same|].
  split; [now apply make_display_safe_run|].
  split; [apply stored_same|].
  intros i col s Hi.
  exists (map replace_nan_cell s), (map display_cell s).
  split; [exact (update_all_lookup _ T i col s Hi)|].
  split; [exact (update_all_lookup _ T i col s Hi)|].
  intros j c Hj. exists (replace_nan_cell c), (display_cell c).
  unfold series in *.
  split; [now rewrite lookup_map, Hj|].
  split; [now rewrite lookup_map, Hj|].
  assert (Hkeep : ∀ t, t ≠ "nan" → replace_nan_cell (CStr t) = CStr t).
  { intros t Ht. simpl. now rewrite (proj2 (String.eqb_neq t "nan")). }
  assert (Hshow : ∀ t, t ≠ "nan" → t ≠ "<NA>" → display_cell (CStr t) = CStr t).
  { intros t Ht Ht'. unfold display_cell. simpl.
    now rewrite (proj2 (String.eqb_neq t "nan")), (proj2 (String.eqb_neq t "<NA>")). }
  split; [intros ->; repeat split|].
  split.
  { intros Hc. destruct c as [t| | | | |]; try reflexivity.
    apply Hkeep. congruence. }
  split; [intros t -> Ht Ht'; now apply Hshow|].
  intros t -> Hsub Ht. split; [now apply Hkeep|].
  apply Hshow; [assumption|]. intros ->. discriminate.
Qed.

(** ** The average age is left out when there is no age to average *)

Lemma average_age_omitted (w : world) (df : nat) (f : frame) :
  heap w !! df = Some f →
  ¬ has_values f age_col →
  ((length (Frame.select age_col f) ≤ 1)%nat →
   mean_kpi df age_col "avg_age" "age_count" ∅ w = Ret ∅ w) ∧
  ∀ kpis w', calculate_kpis df w = Ret kpis w' →
             kpis !! "avg_age" = None ∧ kpis !! "age_count" = None.
Proof.
  intros Hf Hno. split.
  - intros Hone. rewrite (mean_kpi_run w df f) by done. unfold mean_kpi_of.
    destruct (Frame.select age_col f) as [|s [|s' sel]] eqn:Hs;
      [reflexivity | | simpl in Hone; lia].
    destruct (Series.dropna s) eqn:E; [reflexivity|].
    exfalso. apply Hno. exists s. split; [assumption|]. now rewrite E.
  - intros kpis w' Hrun.
    pose proof (calculate_kpis_keys w df f kpis w' Hf Hrun) as Hkeys.
    split; apply eq_None_not_Some; intros Hsome; apply Hkeys in Hsome;
      key_cases Hsome; contradiction.
Qed.

(** C4: the code at the failing input.  The table [rate_frame], as the
    upload [rate_upload] is loaded, has no Age column; [calculate_kpis]
    raises [TypeError] on it, on the mean of the success-rate column,
    whose cells the upload branch has left as text; the run ends there. *)
Theorem kpis_raise_on_text_column :
  has_numeric_indicator success_col = false ∧
  Frame.select age_col rate_frame = [] ∧
  (∃ df_all w1,
     load rate_upload start = Ret df_all w1 ∧
     heap w1 !! df_all = Some rate_frame ∧
     calculate_kpis df_all w1 = Exc TypeError w1) ∧
  ∃ w', run rate_upload = Exc TypeError w' ∧
        page w' = [Notice StSuccess (FileUploaded 2 1)].
Proof.
  split; [reflexivity|]. split; [reflexivity|]. split.
  - do 2 eexists. split; [vm_compute; reflexivity|]. split; reflexivity.
  - eexists. split; [vm_compute; reflexivity | reflexivity].
Qed.

(** * Further properties of the script *)

(** ** The password gate (lines 41-91) *)

Lemma truthy_nonempty (s : string) : truthy s = true ↔ s ≠ "".
Proof. destruct s; simpl; split; congruence. Qed.

(** X1.  One run of the script reaches the data part exactly when no
    password is configured, or the session is already authenticated and
    the logout button is not pressed; the session state is then left as it
    was, and nothing is shown by the gate. *)
Theorem data_part_behind_gate (PASSWORD : string) (ui : clicks) (inp : inputs)
    (s s' : session) (e : ending) :
  script PASSWORD ui inp s = (s', e) →
  (is_dashboard e ↔ PASSWORD = "" ∨ (s = Some true ∧ logout_clicked ui = false)) ∧
  (is_dashboard e → e = Dashboard (run inp) ∧ logged_in s' = logged_in s).
Proof.
  unfold script, logout_button, login_gate, login, is_dashboard, logged_in.
  destruct PASSWORD as [|a P]; simpl.
  - intros [= <- <-]. split; [split; eauto|]. now intros _.
  - destruct s as [[|]|]; simpl; destruct (logout_clicked ui) eqn:El; simpl;
      try (destruct (form_submitted ui); simpl;
           try destruct (String.eqb (pwd_entered ui) (String a P)); simpl);
      intros [= <- <-];
      (split; [split; [intros [r [=]] | intros [[=]|[[=] [=]]]]; eauto
              | try (now intros _); intros [r [=]]]).
Qed.

Lemma interact_two (PASSWORD : string) (ui : clicks) (inp : inputs) (s : session)
    (fuel : nat) :
  interact (S (S fuel)) PASSWORD ui inp s
  = Some (visit_outcome PASSWORD ui s (run inp)).
Proof.
  unfold visit_outcome, logged_in.
  destruct PASSWORD as [|a P]; [reflexivity|].
  destruct ui as [lo sub pwd].
  destruct s as [[|]|]; destruct lo; destruct sub;
    try reflexivity;
    cbn -[run String.eqb];
    destruct (String.eqb pwd (String a P)); reflexivity.
Qed.

(** X2.  The rerun loop of an interaction ends: the script asks for a rerun at
    most once (after a login or a logout), so two runs are always enough,
    and the interaction never ends on a rerun. *)
Theorem rerun_at_most_once (PASSWORD : string) (ui : clicks) (inp : inputs)
    (s : session) :
  ∃ s' e,
    (∀ fuel, (2 ≤ fuel)%nat → interact fuel PASSWORD ui inp s = Some (s', e)) ∧
    (∀ notices, e ≠ Reran notices) ∧
    (∀ s1 notices, script PASSWORD ui inp s = (s1, Reran notices) →
                   script PASSWORD (released ui) inp s1 = (s', e)).
Proof.
  exists (visit_outcome PASSWORD ui s (run inp)).1,
         (visit_outcome PASSWORD ui s (run inp)).2.
  split; [|split].
  - intros [|[|fuel]] Hfuel; [lia | lia |].
    rewrite interact_two. now destruct (visit_outcome _ _ _ _).
  - intros notices. unfold visit_outcome.
    repeat match goal with |- context [if ?b then _ else _] => destruct b end;
      discriminate.
  - intros s1 notices Hrun.
    pose proof (interact_two PASSWORD ui inp s 0) as H2.
    cbn [interact] in H2. rewrite Hrun in H2.
    destruct (script PASSWORD (released ui) inp s1) as [s2 [n|n|r]] eqn:E2.
    + exfalso. discriminate.
    + injection H2 as <-. reflexivity.
    + injection H2 as <-. reflexivity.
Qed.

Lemma browse_cons (PASSWORD : string) (ui : clicks) (inp : inputs)
    (visits : list (clicks * inputs)) (s : session) :
  browse PASSWORD ((ui, inp) :: visits) s
  = let '(s1, e) := visit_outcome PASSWORD ui s (run inp) in
    let '(s2, es) := browse PASSWORD visits s1 in (s2, e :: es).
Proof.
  cbn [browse]. rewrite interact_two. now destruct (visit_outcome _ _ _ _).
Qed.

Lemma visit_locked (PASSWORD : string) (ui : clicks) (s s' : session)
    (data : res unit) (e : ending) :
  PASSWORD ≠ "" →
  logged_in s = false →
  visit_outcome PASSWORD ui s data = (s', e) →
  (form_submitted ui = true ∧ pwd_entered ui = PASSWORD ∧
   s' = Some true ∧ e = Dashboard data) ∨
  (¬ (form_submitted ui = true ∧ pwd_entered ui = PASSWORD) ∧
   logged_in s' = false ∧ ¬ is_dashboard e ∧
   (form_submitted ui = true → e = rejected)).
Proof.
  intros HP Hs. apply truthy_nonempty in HP. unfold visit_outcome.
  rewrite HP, Hs.
  destruct (form_submitted ui); simpl.
  - destruct (String.eqb_spec (pwd_entered ui) PASSWORD) as [Heq|Hne];
      intros [= <- <-].
    + now left.
    + right. repeat split; try reflexivity; [tauto | now intros [r [=]]].
  - intros [= <- <-]. right.
    repeat split; try reflexivity; try discriminate;
      [now intros [[=] _] | now intros [r [=]]].
Qed.

(** X3.  The data part is never shown, and the session never becomes
    authenticated, without the password: in a browser session that starts
    unauthenticated with a password configured, if some interaction ends in
    the data part, or the session ends up authenticated, then some
    interaction has submitted the login form with exactly the password. *)
Theorem no_access_without_password (PASSWORD : string)
    (visits : list (clicks * inputs)) (s s' : session) (es : list ending) :
  PASSWORD ≠ "" →
  logged_in s = false →
  browse PASSWORD visits s = (s', es) →
  Exists is_dashboard es ∨ logged_in s' = true →
  Exists (submits PASSWORD) visits.
Proof.
  intros HP. revert s s' es.
  induction visits as [|[ui inp] visits IH]; intros s s' es Hs Hb Hin.
  - injection Hb as <- <-. destruct Hin as [Hin|Hin].
    + now apply Exists_nil in Hin.
    + congruence.
  - rewrite browse_cons in Hb.
    destruct (visit_outcome PASSWORD ui s (run inp)) as [s1 e] eqn:Ev.
    destruct (browse PASSWORD visits s1) as [s2 es'] eqn:Eb.
    injection Hb as <- <-.
    destruct (visit_locked PASSWORD ui s s1 (run inp) e HP Hs Ev)
      as [(Hsub & Hpwd & _ & _)|(_ & Hs1 & Hnd & _)].
    + apply Exists_cons_hd. now split.
    + apply Exists_cons_tl. apply (IH s1 s2 es' Hs1 Eb).
      destruct Hin as [Hin|Hin]; [|now right].
      apply Exists_cons in Hin as [Hin|Hin]; [contradiction | now left].
Qed.

(** X4.  A wrong password is rejected and nothing is remembered of it: after
    any number of wrong guesses, each answered by the error and a stop,
    the session is still unauthenticated and the next submission of the
    password itself is let in to the data part at once. *)
Theorem wrong_guesses_do_not_lock (PASSWORD : string)
    (guesses : list (clicks * inputs)) (ui : clicks) (inp : inputs) (s : session) :
  PASSWORD ≠ "" →
  logged_in s = false →
  Forall (guesses_wrong PASSWORD) guesses →
  submits PASSWORD (ui, inp) →
  (∃ s1, browse PASSWORD guesses s = (s1, map (λ _, rejected) guesses) ∧
         logged_in s1 = false) ∧
  browse PASSWORD (guesses ++ [(ui, inp)])%list s
  = (Some true, (map (λ _, rejected) guesses ++ [Dashboard (run inp)])%list).
Proof.
  intros HP Hs Hwrong [Hsub Hpwd]. cbn [fst] in Hsub, Hpwd.
  revert s Hs. induction Hwrong as [|[ui' inp'] guesses [Hsub' Hne] _ IH];
    intros s Hs; cbn [app map fst] in *.
  - split; [now exists s|].
    rewrite browse_cons.
    destruct (visit_outcome PASSWORD ui s (run inp)) as [s1 e] eqn:Ev.
    destruct (visit_locked PASSWORD ui s s1 (run inp) e HP Hs Ev)
      as [(_ & _ & -> & ->)|(Hno & _)]; [reflexivity | tauto].
  - rewrite !browse_cons.
    destruct (visit_outcome PASSWORD ui' s (run inp')) as [s1 e] eqn:Ev.
    destruct (visit_locked PASSWORD ui' s s1 (run inp') e HP Hs Ev)
      as [(_ & Heq & _)|(_ & Hs1 & _ & Hrej)]; [contradiction|].
    rewrite (Hrej Hsub').
    destruct (IH s1 Hs1) as [(s2 & -> & Hs2) ->].
    split; [now exists s2 | reflexivity].
Qed.

(** X5.  Logging in and out compose to where the session started: from an
    unauthenticated session the password opens the data part in the same
    interaction (after one rerun), and pressing the logout button in the
    next one ends at the login prompt with the session unauthenticated. *)
Theorem login_then_logout (PASSWORD : string) (ui1 ui2 : clicks)
    (inp1 inp2 : inputs) (s : session) :
  PASSWORD ≠ "" →
  logged_in s = false →
  submits PASSWORD (ui1, inp1) →
  logout_clicked ui2 = true →
  interact 1 PASSWORD ui1 inp1 s = None ∧
  browse PASSWORD [(ui1, inp1); (ui2, inp2)] s
  = (Some false, [Dashboard (run inp1); login_prompt]).
Proof.
  intros HP Hs [Hsub Hpwd] Hout. simpl in Hsub, Hpwd.
  pose proof (proj2 (truthy_nonempty PASSWORD) HP) as Ht.
  split.
  - unfold logged_in in Hs. cbn [interact]. unfold script, logout_button, login_gate, login.
    rewrite Ht. rewrite Hs. simpl.
    assert (Hs' : session_get (match s with None => Some false | Some _ => s end) false
                  = false) by (destruct s; assumption).
    rewrite Hs', Hsub, Hpwd, String.eqb_refl. reflexivity.
  - rewrite !browse_cons. unfold visit_outcome at 1.
    rewrite Ht, Hs, Hsub, Hpwd, String.eqb_refl. cbv beta iota zeta delta [andb].
    rewrite browse_cons.
    unfold visit_outcome, logged_in. cbn [session_get]. rewrite Ht, Hout. reflexivity.
Qed.

(** ** Loading (lines 106-155) *)

Lemma load_sample_run (inp : inputs) (f : frame) :
  sample_loads inp f →
  load inp start
  = Ret 1%nat (World (<[1%nat := f]> {[0%nat := []]})
                     [Notice StSuccess
                        (SampleLoaded (Frame.len f) (length (Frame.columns f)))]).
Proof.
  destruct inp as [choice sample up]. intros (Hc & Hd & He). simpl in Hc, Hd.
  subst choice sample.
  destruct f as [|[l [|c s]] f]; try discriminate; reflexivity.
Qed.

(** X6.  When the sample file gives a table, that table is the one loaded,
    cell for cell as it was read (no coercion, labels not yet stripped);
    the success notice tells its rows and columns; and the uploader is not
    consulted: whatever file it holds, the load is the same. *)
Theorem sample_table_loaded_as_read (inp : inputs) (f : frame) :
  sample_loads inp f →
  ∃ (df_all : nat) (w1 : world),
    load inp start = Ret df_all w1 ∧
    heap w1 !! df_all = Some f ∧
    page w1 = [Notice StSuccess
                 (SampleLoaded (Frame.len f) (length (Frame.columns f)))] ∧
    ∀ up, load (with_upload inp up) start = Ret df_all w1.
Proof.
  intros Hs. eexists _, _. split; [exact (load_sample_run inp f Hs)|].
  split; [reflexivity|]. split; [reflexivity|].
  intros up. apply load_sample_run.
  destruct Hs as (Hc & Hd & He). unfold sample_loads, with_upload. simpl. tauto.
Qed.

Lemma before_upload_page (inp : inputs) :
  Forall (λ e, from_loading e = true) (page (before_upload inp).2) ∧
  (length (page (before_upload inp).2) ≤ 2)%nat.
Proof.
  unfold before_upload.
  destruct (data_choice inp), (default_csv inp) as [[f|]|]; simpl;
    split; repeat constructor.
Qed.

(** X7.  With the uploader on the page and no file in it, the run shows the
    prompt to upload a file and stops: no error is reported and nothing of
    the dashboard is shown. *)
Theorem no_upload_prompts (inp : inputs) :
  uploader_shown inp = true →
  uploaded_file inp = None →
  ∃ (before : list element),
    Forall (λ e, from_loading e = true) before ∧
    run inp
    = Exc StopException
        (World (heap (before_upload inp).2)
               (before ++ [Notice StInfo PleaseUpload])) ∧
    ∀ n, Notice StError n ∉ (before ++ [Notice StInfo PleaseUpload])%list.
Proof.
  intros Hshown Hup.
  destruct (load_reaches_uploader inp Hshown) as (Hload & _ & _).
  exists (page (before_upload inp).2).
  destruct (before_upload_page inp) as [Hpage _].
  split; [exact Hpage|]. split.
  - unfold run, main. rewrite bind_run, Hload. unfold load_upload. rewrite Hup.
    reflexivity.
  - intros n Hin. apply elem_of_app in Hin as [Hin|Hin].
    + rewrite Forall_forall in Hpage.
      revert Hin. unfold before_upload.
      destruct (data_choice inp), (default_csv inp) as [[f|]|]; simpl; intros Hin;
        repeat (apply elem_of_cons in Hin as [Hin|Hin]; [discriminate|]);
        now apply elem_of_nil in Hin.
    + apply list_elem_of_singleton in Hin. discriminate.
Qed.

(** X8.  A failure of the CSV reader is handled on one path only.  On the
    sample file it is caught: a warning, then the uploader.  On an
    uploaded file it is not: the exception ends the run, and the script
    puts no notice of its own on the page. *)
Theorem reader_failure_caught_on_sample_only :
  (∀ (inp : inputs),
     data_choice inp = UseSample →
     default_csv inp = Some None →
     ∃ df0 w0,
       load inp start = load_upload inp df0 w0 ∧
       heap w0 !! df0 = Some [] ∧
       page w0 = [Notice StWarning SampleIssue; Notice StInfo FilesNotFound]) ∧
  (∀ (inp : inputs) (file : upload),
     uploader_shown inp = true →
     uploaded_file inp = Some file →
     PyStr.endswith (name file) ".csv" = true →
     content file = None →
     run inp = Exc ParserError (before_upload inp).2).
Proof.
  split.
  - intros [choice sample up] Hc Hd. simpl in Hc, Hd. subst choice sample.
    eexists _, _. split; [reflexivity|]. split; reflexivity.
  - intros inp file Hshown Hup Hcsv Hnone.
    destruct (load_reaches_uploader inp Hshown) as (Hload & _ & _).
    unfold run, main. rewrite bind_run, Hload. unfold load_upload.
    rewrite Hup, Hcsv. unfold load_csv, pd_read_csv_str. rewrite Hnone.
    reflexivity.
Qed.

Lemma update_all_columns (g : string → series → series) (f : frame) :
  Frame.columns (update_all g f) = Frame.columns f.
Proof. unfold Frame.columns, update_all. rewrite map_map. now apply map_ext. Qed.

Lemma update_all_same (g : string → series → series) (f : frame) :
  (∀ c, c ∈ f → g (fst c) (snd c) = snd c) → update_all g f = f.
Proof.
  intros H. unfold update_all. rewrite <- (map_id f) at 2. apply map_ext_in.
  intros [l s] Hin. simpl. f_equal. apply (H (l, s)). now apply list_elem_of_In.
Qed.

Lemma uploaded_frame_columns (raw : list (string * list string)) :
  Frame.columns (uploaded_frame raw) = map fst raw.
Proof.
  assert (H : Frame.columns (read_csv_frame raw) = map fst raw).
  { unfold Frame.columns, read_csv_frame. rewrite map_map. now apply map_ext. }
  unfold uploaded_frame. cbv zeta. destruct (Frame.empty (read_csv_frame raw)).
  - exact H.
  - unfold coerced_frame. now rewrite !update_all_columns.
Qed.

(** X9.  An uploaded CSV file keeps its shape: the loaded table has the labels
    of the header in their order (surrounding blanks included), every
    column has one cell per field, and a column whose label holds no
    numeric-indicator keyword stays text: a field that the reader takes
    for a missing value is [nan], every other field is the cell, as
    written. *)
Theorem upload_keeps_shape_and_text (inp : inputs) (file : upload)
    (raw : list (string * list string)) :
  uploader_shown inp = true →
  uploaded_file inp = Some file →
  PyStr.endswith (name file) ".csv" = true →
  content file = Some raw →
  rectangular raw →
  ∃ (df_all : nat) (w1 : world) (T : frame),
    load inp start = Ret df_all w1 ∧
    heap w1 !! df_all = Some T ∧
    Frame.columns T = map fst raw ∧
    ∀ (i : nat) (col : string) (fields : list string),
      raw !! i = Some (col, fields) →
      ∃ s, T !! i = Some (col, s) ∧
           length s = length fields ∧
           (has_numeric_indicator col = false →
            ∀ (j : nat) (t : string),
              fields !! j = Some t →
              s !! j = Some (if bool_decide (t ∈ na_values) then CNaN else CStr t)).
Proof.
  intros Hshown Hup Hcsv Hraw Hrect.
  destruct (load_reaches_uploader inp Hshown) as (Hload & _ & _).
  destruct (load_upload_csv_run inp (before_upload inp).1 (before_upload inp).2
              file raw Hup Hcsv Hraw) as (w1 & Hrun & Hf & _).
  rewrite <- Hload in Hrun.
  eexists _, w1, (uploaded_frame raw).
  split; [exact Hrun|]. split; [exact Hf|].
  split; [apply uploaded_frame_columns|].
  intros i col fields Hi.
  exists (coerce_column col (map read_field fields)).
  split; [exact (uploaded_column raw i col fields Hrect Hi)|].
  unfold coerce_column. destruct (has_numeric_indicator col).
  - split; [now rewrite to_numeric_length, length_map | discriminate].
  - split; [now rewrite length_map|]. intros _ j t Hj.
    unfold series. rewrite lookup_map, Hj. simpl. f_equal. unfold read_field.
    destruct (existsb (String.eqb t) na_values) eqn:E.
    + rewrite bool_decide_eq_true_2; [reflexivity|].
      apply existsb_exists in E as (x & Hin & Heq).
      apply String.eqb_eq in Heq. subst x. now apply list_elem_of_In.
    + rewrite bool_decide_eq_false_2; [reflexivity|].
      intros Hin. apply list_elem_of_In in Hin.
      assert (existsb (String.eqb t) na_values = true); [|congruence].
      apply existsb_exists. exists t. split; [assumption | apply String.eqb_refl].
Qed.

(** X10.  The replacement of lines 138-139 never finds the text "nan" in a table
    that [pd.read_csv] has just returned (the reader has already made such
    a field a missing value): the loop leaves the table and the page as
    they are. *)
Theorem replace_nan_finds_nothing (w : world) (df : nat)
    (raw : list (string * list string)) :
  heap w !! df = Some (read_csv_frame raw) →
  replace_nan df w = Ret () w.
Proof.
  intros Hf. rewrite (replace_nan_run w df (read_csv_frame raw) Hf).
  f_equal. rewrite update_all_same; [now apply stored_id|].
  intros [l s] Hin. simpl.
  apply list_elem_of_In, in_map_iff in Hin as ([l' fields] & [= <- <-] & _).
  apply replace_nan_after_read.
Qed.

(** X11.  The numeric coercion of lines 140-147 can be run again without effect;
    it keeps the labels, leaves every column without a keyword as it is,
    and leaves no text in a column with one. *)
Theorem coerce_numeric_settles (w : world) (df : nat) (f : frame) :
  heap w !! df = Some f →
  ∃ (w1 : world) (f1 : frame),
    coerce_numeric df w = Ret () w1 ∧
    heap w1 !! df = Some f1 ∧
    coerce_numeric df w1 = Ret () w1 ∧
    Frame.columns f1 = Frame.columns f ∧
    ∀ (i : nat) (col : string) (s : series),
      f !! i = Some (col, s) →
      ∃ s1, f1 !! i = Some (col, s1) ∧
            (has_numeric_indicator col = false → s1 = s) ∧
            (has_numeric_indicator col = true → ∀ c, c ∈ s1 → is_text c = false).
Proof.
  intros Hf.
  exists (stored w df (update_all coerce_column f)), (update_all coerce_column f).
  assert (H1 : heap (stored w df (update_all coerce_column f)) !! df
               = Some (update_all coerce_column f)) by apply stored_same.
  split; [now apply coerce_numeric_run|]. split; [exact H1|].
  split.
  { rewrite (coerce_numeric_run _ df _ H1), stored_twice. do 2 f_equal.
    unfold update_all. rewrite map_map. apply map_ext. intros [l s]. simpl.
    now rewrite coerce_column_idempotent. }
  split; [apply update_all_columns|].
  intros i col s Hi. exists (coerce_column col s).
  split; [exact (update_all_lookup _ f i col s Hi)|].
  unfold coerce_column. split; intros Hind; rewrite Hind; [reflexivity|].
  intros c Hc. apply list_elem_of_lookup in Hc as [j Hj].
  destruct (lookup_lt_is_Some_2 s j) as [c0 Hc0].
  { rewrite <- to_numeric_length. now apply lookup_lt_Some in Hj. }
  destruct (to_numeric_lookup s j c0 Hc0) as (c' & Hc' & Hshape).
  unfold series in *. rewrite Hj in Hc'. injection Hc' as <-.
  destruct c0 as [t| | | | |]; simpl in Hshape;
    try (destruct (Numeric.parse_number t) as [[z|q]|]);
    destruct Hshape as [-> | ->]; reflexivity.
Qed.

(** ** The run as a whole *)

Lemma load_outcomes (inp : inputs) :
  Forall (λ e, from_loading e = true) (page (world_of (load inp start))) ∧
  ((∃ df_all w1 T, load inp start = Ret df_all w1 ∧ heap w1 !! df_all = Some T) ∨
   (∃ e w1, load inp start = Exc e w1 ∧ (e = StopException ∨ e = ParserError))).
Proof.
  destruct (uploader_shown inp) eqn:Hshown.
  - destruct (load_reaches_uploader inp Hshown) as (Hload & Hdf & _).
    destruct (before_upload_page inp) as [Hpage _].
    rewrite Hload.
    destruct (uploaded_file inp) as [file|] eqn:Hup.
    + destruct (PyStr.endswith (name file) ".csv") eqn:Hcsv.
      * destruct (content file) as [raw|] eqn:Hraw.
        -- destruct (load_upload_csv_run inp (before_upload inp).1 (before_upload inp).2
                       file raw Hup Hcsv Hraw) as (w1 & Hrun & Hf & Hp).
           rewrite Hrun. simpl. split; [|left; eauto].
           rewrite Hp. apply Forall_app. split; [assumption|].
           destruct (Frame.empty (uploaded_frame raw)); repeat constructor.
        -- unfold load_upload, load_csv, pd_read_csv_str. rewrite Hup, Hcsv, Hraw.
           split; [exact Hpage | right; eauto].
      * rewrite (load_upload_other_run inp _ _ file Hup Hcsv Hdf).
        split; [|left; eauto]. simpl. apply Forall_app. split; [assumption|].
        repeat constructor.
    + unfold load_upload. rewrite Hup. split; [|right; eauto].
      simpl. apply Forall_app. split; [assumption | repeat constructor].
  - assert (Hs : ∃ f, sample_loads inp f).
    { unfold uploader_shown in Hshown. unfold sample_loads.
      destruct (data_choice inp); [|discriminate].
      destruct (default_csv inp) as [[f|]|]; try discriminate. eauto. }
    destruct Hs as [f Hs]. rewrite (load_sample_run inp f Hs).
    split; [repeat constructor | left; eauto].
Qed.

Lemma mean_kpi_of_error (f : frame) (col a c : string) (k : gmap string cell) (e : exn) :
  mean_kpi_of f col a c k = inl e →
  (e = DuplicateLabel ∧ (2 ≤ length (Frame.select col f))%nat) ∨
  (e = TypeError ∧ ∃ s t, Frame.select col f = [s] ∧ CStr t ∈ s).
Proof.
  unfold mean_kpi_of.
  destruct (Frame.select col f) as [|s [|s' sel]]; [discriminate | |].
  - destruct (0 <? length (Series.dropna s))%nat; [|discriminate].
    unfold Series.mean.
    destruct (Series.qsum (Series.dropna (Series.dropna s))) eqn:E.
    { now destruct (Series.dropna (Series.dropna s)). }
    intros [= <-]. right. split; [reflexivity|]. exists s.
    assert (H : ∃ t, CStr t ∈ Series.dropna (Series.dropna s)).
    { revert E. generalize (Series.dropna s). intros v.
      unfold Series.dropna.
      induction v as [|x v IH]; simpl; [discriminate|].
      destruct (isna x) eqn:Ex; simpl; [exact IH|].
      destruct (cell_num x) eqn:En.
      - destruct (Series.qsum (List.filter _ v)); [discriminate|].
        intros _. destruct (IH eq_refl) as [t Ht]. exists t.
        now apply list_elem_of_further.
      - intros _. destruct x; try discriminate. eexists. apply list_elem_of_here. }
    destruct H as [t Ht]. exists t. split; [reflexivity|].
    unfold Series.dropna in Ht.
    apply list_elem_of_In, filter_In in Ht as [Ht _].
    apply filter_In in Ht as [Ht _]. now apply list_elem_of_In.
  - intros [= <-]. left. split; [reflexivity | simpl; lia].
Qed.

Lemma and_then_inl {A B : Type} (x : exn + A) (k : A → exn + B) (e : exn) :
  and_then x k = inl e → x = inl e ∨ ∃ a, x = inr a ∧ k a = inl e.
Proof. destruct x as [e'|a]; simpl; [intros [= ->]; now left | eauto]. Qed.

Lemma calculate_kpis_of_error (f : frame) (e : exn) :
  calculate_kpis_of f = inl e →
  (e = DuplicateLabel ∧
   ∃ col, col ∈ [age_col; delivery_col; success_col; income_col; company_col] ∧
          (2 ≤ length (Frame.select col f))%nat) ∨
  (e = TypeError ∧
   ∃ col s t, col ∈ [age_col; delivery_col; success_col; income_col] ∧
              Frame.select col f = [s] ∧ CStr t ∈ s).
Proof.
  unfold calculate_kpis_of. intros H.
  repeat (apply and_then_inl in H as [H|(? & _ & H)];
          [apply mean_kpi_of_error in H as [[-> Hn]|[-> (s & t & Hs & Ht)]];
           [left; split; [reflexivity|]; eexists; split; [|exact Hn]; set_solver
           |right; split; [reflexivity|]; eexists _, s, t; split; [|eauto]; set_solver]
          |]).
  unfold company_kpi_of in H.
  destruct (Frame.select company_col f) as [|s [|s' sel]] eqn:E; try discriminate.
  injection H as <-. left. split; [reflexivity|].
  exists company_col. split; [set_solver|]. rewrite E. simpl. lia.
Qed.

Lemma run_outcomes (inp : inputs) :
  (∃ (w : world) (before : list element) (T : frame) (kpis : gmap string cell)
     (m2 m3 m4 : metric),
     run inp = Ret () w ∧
     Forall (λ e, from_loading e = true) before ∧
     calculate_kpis_of T = inr kpis ∧
     second_slot kpis m2 ∧ third_slot kpis T m3 ∧ fourth_slot kpis T m4 ∧
     page w = dashboard_page before T m2 m3 m4) ∨
  (∃ (e : exn) (w : world) (before : list element),
     run inp = Exc e w ∧
     e ∈ [StopException; ParserError; TypeError; DuplicateLabel] ∧
     Forall (λ e, from_loading e = true) before ∧
     (page w = before ∨
      (e = StopException ∧ page w = (before ++ [Notice StError NoDataAvailable])%list))).
Proof.
  destruct (load_outcomes inp) as [Hpage [(df & w1 & T & Hload & Hf)|(e & w1 & Hload & He)]];
    rewrite Hload in Hpage; simpl in Hpage.
  - unfold run. rewrite (main_run inp start df w1 T Hload Hf).
    destruct (Frame.empty T).
    + right. eexists _, _, (page w1). split; [reflexivity|].
      split; [set_solver|]. split; [assumption|]. right. now split.
    + pose proof (dashboard_run w1 df T Hf) as Hdash.
      destruct (calculate_kpis_of (stripped T)) as [e|kpis] eqn:Ek.
      * destruct Hdash as (w2 & -> & Hp). right. eexists _, _, (page w1).
        split; [reflexivity|]. split.
        { apply calculate_kpis_of_error in Ek as [[-> _]|[-> _]]; set_solver. }
        split; [assumption | now left].
      * destruct Hdash as (w2 & m2 & m3 & m4 & -> & H2 & H3 & H4 & Hp). left.
        eexists w2, (page w1), (stripped T), kpis, m2, m3, m4.
        now repeat split.
  - right. exists e, w1, (page w1). unfold run, main. rewrite bind_run, Hload.
    split; [reflexivity|]. split; [destruct He as [-> | ->]; set_solver|].
    split; [assumption | now left].
Qed.


(** X13.  The second guard on the loaded table (lines 162-164) is never taken:
    a table with zero rows or zero columns has been stopped by the first,
    so no run shows the invalid-structure error. *)
Theorem invalid_structure_never_shown (inp : inputs) (l : level) :
  Notice l InvalidStructure ∉ page (world_of (run inp)).
Proof.
  assert (Hload : ∀ before, Forall (λ e, from_loading e = true) before →
                            Notice l InvalidStructure ∉ before).
  { intros before Hb Hin. rewrite Forall_forall in Hb. apply Hb in Hin. discriminate. }
  destruct (run_outcomes inp)
    as [(w & before & T & kpis & m2 & m3 & m4 & Hrun & Hb & _ & _ & _ & _ & Hp)
       |(e & w & before & Hrun & _ & Hb & [Hp | [_ Hp]])];
    rewrite Hrun; cbn [world_of]; rewrite Hp.
  - unfold dashboard_page, summary_elements. intros Hin.
    apply elem_of_app in Hin as [Hin|Hin]; [now apply (Hload before)|].
    repeat (apply elem_of_cons in Hin as [Hin|Hin]; [discriminate|]).
    now apply elem_of_nil in Hin.
  - now apply Hload.
  - intros Hin. apply elem_of_app in Hin as [Hin|Hin]; [now apply (Hload before)|].
    apply list_elem_of_singleton in Hin. discriminate.
Qed.

(** X14.  The "Filtered Data" metric can only read "100%": the table shown is a
    copy of the table loaded, so the branch that computes a percentage
    (line 297) is never taken. *)
Theorem filtered_data_always_full (inp : inputs) (w : world) :
  run inp = Ret () w →
  ShowMetric Col1 (Metric "Filtered Data" (Lit "100%") None) ∈ page w ∧
  ∀ v d, ShowMetric Col1 (Metric "Filtered Data" v d) ∈ page w →
         v = Lit "100%" ∧ d = None.
Proof.
  intros Hrun.
  destruct (run_outcomes inp)
    as [(w' & before & T & kpis & m2 & m3 & m4 & Hret & Hb & _ & _ & _ & _ & Hp)
       |(e & w' & before & Hexc & _)]; [|congruence].
  rewrite Hrun in Hret. injection Hret as <-. rewrite Hp.
  unfold dashboard_page, summary_elements. split.
  - apply elem_of_app. right. set_solver.
  - intros v d Hin. apply elem_of_app in Hin as [Hin|Hin].
    + rewrite Forall_forall in Hb. apply Hb in Hin. discriminate.
    + repeat (apply elem_of_cons in Hin as [Hin|Hin];
              [try discriminate; injection Hin as -> ->; now split|]).
      now apply elem_of_nil in Hin.
Qed.

(** ** The values of the KPI mapping (lines 190-233) *)

Lemma dropna_idempotent (s : series) :
  Series.dropna (Series.dropna s) = Series.dropna s.
Proof.
  unfold Series.dropna. induction s as [|c s IH]; simpl; [reflexivity|].
  destruct (isna c) eqn:E; simpl; [exact IH|]. now rewrite E, IH.
Qed.





(** ** The rendered dashboard (lines 166-305) *)





Lemma qsum_no_text (v : series) (total : Q) (t : string) :
  Series.qsum v = Some total → CStr t ∉ v.
Proof.
  revert total. induction v as [|c v IH]; intros total H Hin.
  - now apply elem_of_nil in Hin.
  - simpl in H. destruct (cell_num c) eqn:Ec; [|discriminate].
    destruct (Series.qsum v) eqn:Ev; [|discriminate].
    apply elem_of_cons in Hin as [<-|Hin]; [discriminate | now apply (IH q0)].
Qed.

Lemma mean_kpi_of_no_text (f : frame) (col a c : string) (k k' : gmap string cell)
    (s : series) (t : string) :
  mean_kpi_of f col a c k = inr k' →
  Frame.select col f = [s] → CStr t ∉ s.
Proof.
  intros H Hs Hin.
  assert (Hv : CStr t ∈ Series.dropna s).
  { unfold Series.dropna. apply list_elem_of_In, filter_In.
    split; [now apply list_elem_of_In | reflexivity]. }
  apply mean_kpi_of_inr in H as [[Hno _]|(s' & avg & Hs' & _ & Hm & _)].
  - apply Hno. exists s. split; [assumption|]. intros E. rewrite E in Hv.
    now apply elem_of_nil in Hv.
  - rewrite Hs in Hs'. injection Hs' as <-.
    unfold Series.mean in Hm. rewrite dropna_idempotent in Hm.
    destruct (Series.qsum (Series.dropna s)) as [total|] eqn:Eq; [|discriminate].
    now apply (qsum_no_text _ total t Eq).
Qed.

Lemma calculate_kpis_of_outcome (f : frame) :
  kpi_labels_unique f →
  (text_in_kpi_column f → calculate_kpis_of f = inl TypeError) ∧
  (¬ text_in_kpi_column f → ∃ kpis, calculate_kpis_of f = inr kpis).
Proof.
  intros Huniq.
  destruct (calculate_kpis_of f) as [e|kpis] eqn:E.
  - apply calculate_kpis_of_error in E as [[-> (col & Hin & Hlen)]|[-> Htext]].
    + specialize (Huniq col Hin). lia.
    + split; [reflexivity | contradiction].
  - split; [|eauto]. intros (col & s & t & Hin & Hs & Ht). exfalso.
    unfold calculate_kpis_of in E.
    apply and_then_inr in E as (k1 & H1 & E).
    apply and_then_inr in E as (k2 & H2 & E).
    apply and_then_inr in E as (k3 & H3 & E).
    apply and_then_inr in E as (k4 & H4 & _).
    apply elem_of_cons in Hin as [->|Hin];
      [exact (mean_kpi_of_no_text f _ _ _ _ _ s t H1 Hs Ht)|].
    apply elem_of_cons in Hin as [->|Hin];
      [exact (mean_kpi_of_no_text f _ _ _ _ _ s t H2 Hs Ht)|].
    apply elem_of_cons in Hin as [->|Hin];
      [exact (mean_kpi_of_no_text f _ _ _ _ _ s t H3 Hs Ht)|].
    apply elem_of_cons in Hin as [->|Hin];
      [exact (mean_kpi_of_no_text f _ _ _ _ _ s t H4 Hs Ht)|].
    now apply elem_of_nil in Hin.
Qed.

(** X17.  When [calculate_kpis] raises.  On a table where no KPI label is
    carried by two columns, [calculate_kpis] raises [TypeError] if one of
    the four numeric KPI columns holds a text cell, and returns a mapping
    if none does; either way the store and the page are as before. *)
Theorem kpis_raise_exactly_on_text (w : world) (df : nat) (f : frame) :
  heap w !! df = Some f →
  kpi_labels_unique f →
  (text_in_kpi_column f → calculate_kpis df w = Exc TypeError w) ∧
  (¬ text_in_kpi_column f → ∃ kpis, calculate_kpis df w = Ret kpis w).
Proof.
  intros Hf Huniq. rewrite (calculate_kpis_run w df f Hf).
  destruct (calculate_kpis_of_outcome f Huniq) as [Htext Hclean]. split.
  - intros H. now rewrite (Htext H).
  - intros H. destruct (Hclean H) as [kpis ->]. now exists kpis.
Qed.

(** ** Stripping a label keeps its keywords *)









(** ** Uploads from end to end *)









(** ** The most frequent company (lines 224-231) *)

Lemma cell_eqb_refl (c : cell) : isna c = false → cell_eqb c c = true.
Proof.
  destruct c; simpl; try discriminate; intros _;
    [apply String.eqb_refl | apply Qeq_bool_refl | apply Qeq_bool_refl].
Qed.

Lemma cell_eqb_sym (a b : cell) : cell_eqb a b = cell_eqb b a.
Proof.
  destruct a, b; simpl; try reflexivity;
    first [apply String.eqb_sym
          | apply eq_true_iff_eq; rewrite !Qeq_bool_iff; split; intros H; now symmetry].
Qed.

Lemma cell_eqb_trans (a b c : cell) :
  cell_eqb a b = true → cell_eqb b c = true → cell_eqb a c = true.
Proof.
  destruct a, b; simpl; try discriminate; destruct c; simpl; try discriminate;
    first [ intros H1 H2; apply String.eqb_eq in H1, H2; subst; apply String.eqb_refl
          | apply Qeq_bool_trans ].
Qed.

Lemma count_same (a b : cell) (v : series) :
  cell_eqb a b = true → Series.count a v = Series.count b v.
Proof.
  intros H. unfold Series.count. f_equal. apply filter_ext. intros x.
  apply eq_true_iff_eq. split; intros Hx.
  - apply (cell_eqb_trans b a x); [now rewrite cell_eqb_sym | assumption].
  - now apply (cell_eqb_trans a b x).
Qed.

Lemma unique_subset (c : cell) (v : series) : c ∈ Series.unique v → c ∈ v.
Proof.
  induction v as [|a v IH]; simpl; intros H; [assumption|].
  apply elem_of_cons in H as [->|H]; [apply list_elem_of_here|].
  apply list_elem_of_further, IH.
  apply list_elem_of_In, filter_In in H as [H _]. now apply list_elem_of_In.
Qed.

Lemma unique_represents (c : cell) (v : series) :
  c ∈ v → isna c = false → ∃ d, d ∈ Series.unique v ∧ cell_eqb d c = true.
Proof.
  intros Hin Hc. induction v as [|a v IH]; [now apply elem_of_nil in Hin|].
  simpl. apply elem_of_cons in Hin as [<-|Hin].
  - exists c. split; [apply list_elem_of_here | now apply cell_eqb_refl].
  - destruct (IH Hin) as (d & Hd & Hdc).
    destruct (cell_eqb a d) eqn:Ead.
    + exists a. split; [apply list_elem_of_here | now apply (cell_eqb_trans a d c)].
    + exists d. split; [|assumption].
      apply list_elem_of_further, list_elem_of_In, filter_In.
      split; [now apply list_elem_of_In | now rewrite Ead].
Qed.

Lemma max_bounds {A : Type} (g : A → nat) (v : list A) (c : A) :
  c ∈ v → (g c ≤ foldr Nat.max 0 (map g v))%nat.
Proof.
  induction v as [|a v IH]; intros H; [now apply elem_of_nil in H|].
  simpl. apply elem_of_cons in H as [->|H]; [lia|]. specialize (IH H). lia.
Qed.

Lemma max_attained {A : Type} (g : A → nat) (v : list A) :
  v ≠ [] → ∃ c, c ∈ v ∧ g c = foldr Nat.max 0%nat (map g v).
Proof.
  induction v as [|a v IH]; [congruence|]. intros _. simpl.
  destruct v as [|b v].
  - exists a. split; [apply list_elem_of_here | simpl; lia].
  - destruct IH as (c & Hc & Hmax); [discriminate|].
    destruct (Nat.le_gt_cases (g a) (foldr Nat.max 0%nat (map g (b :: v)))) as [Hle|Hgt].
    + exists c. split; [now apply list_elem_of_further | lia].
    + exists a. split; [apply list_elem_of_here | lia].
Qed.

Lemma insert_sorted_elem (c x : cell) (s : series) :
  x ∈ Series.insert_sorted c s ↔ x = c ∨ x ∈ s.
Proof.
  induction s as [|d s IH]; simpl.
  - rewrite list_elem_of_singleton, elem_of_nil. tauto.
  - destruct (cell_leb c d).
    + now rewrite elem_of_cons.
    + rewrite !elem_of_cons, IH. tauto.
Qed.

Lemma sort_elem (x : cell) (s : series) : x ∈ Series.sort s ↔ x ∈ s.
Proof.
  unfold Series.sort. induction s as [|c s IH]; simpl; [reflexivity|].
  now rewrite insert_sorted_elem, IH, elem_of_cons.
Qed.

Lemma dropna_elem (c : cell) (s : series) :
  c ∈ Series.dropna s ↔ c ∈ s ∧ isna c = false.
Proof.
  unfold Series.dropna. rewrite !list_elem_of_In, filter_In.
  now rewrite negb_true_iff.
Qed.

Lemma mode_elem (s : series) (c : cell) :
  c ∈ Series.mode s ↔
  c ∈ Series.unique (Series.dropna s) ∧
  Series.count c (Series.dropna s)
  = foldr Nat.max 0%nat (map (λ d, Series.count d (Series.dropna s)) (Series.dropna s)).
Proof.
  unfold Series.mode. cbv zeta.
  match goal with |- context [if ?b then _ else _] => destruct b end;
    rewrite ?sort_elem, !list_elem_of_In, filter_In, Nat.eqb_eq; reflexivity.
Qed.

Lemma mode_most_frequent (s : series) :
  (Series.dropna s = [] → Series.mode s = []) ∧
  (Series.dropna s ≠ [] →
   ∃ top rest,
     Series.mode s = top :: rest ∧
     top ∈ Series.dropna s ∧
     ∀ c, c ∈ Series.dropna s →
          (Series.count c (Series.dropna s) ≤ Series.count top (Series.dropna s))%nat).
Proof.
  split.
  - intros E. unfold Series.mode. rewrite E. reflexivity.
  - intros Hv.
    destruct (max_attained (λ d, Series.count d (Series.dropna s)) (Series.dropna s) Hv)
      as (c0 & Hc0 & Hmax).
    destruct (unique_represents c0 (Series.dropna s) Hc0) as (d & Hd & Hdc).
    { now apply dropna_elem in Hc0. }
    assert (Hmode : d ∈ Series.mode s).
    { apply mode_elem. split; [assumption|]. now rewrite (count_same d c0). }
    destruct (Series.mode s) as [|top rest] eqn:E; [now apply elem_of_nil in Hmode|].
    exists top, rest. split; [reflexivity|].
    assert (Htop : top ∈ Series.mode s) by (rewrite E; apply list_elem_of_here).
    apply mode_elem in Htop as [Hu Hcount].
    split; [now apply unique_subset|].
    intros c Hc. rewrite Hcount.
    now apply (max_bounds (λ d, Series.count d (Series.dropna s))).
Qed.

(** X20.  The top company is a most frequent one.  When the Company column has
    a value, [top_company] is a cell of the column that is not missing,
    and no value of the column occurs more often than it; when the column
    has no value, [top_company] is the text "N/A". *)
Theorem top_company_most_frequent (w : world) (df : nat) (f : frame)
    (kpis : gmap string cell) (w' : world) (s : series) :
  heap w !! df = Some f →
  calculate_kpis df w = Ret kpis w' →
  Frame.select company_col f = [s] →
  (Series.dropna s = [] → kpis !! "top_company" = Some (CStr "N/A")) ∧
  (Series.dropna s ≠ [] →
   ∃ top, kpis !! "top_company" = Some top ∧
          top ∈ s ∧ isna top = false ∧
          ∀ c, c ∈ Series.dropna s →
               (Series.count c (Series.dropna s)
                ≤ Series.count top (Series.dropna s))%nat).
Proof.
  intros Hf Hrun Hs.
  rewrite (calculate_kpis_run w df f Hf) in Hrun.
  destruct (calculate_kpis_of f) as [e|k] eqn:E; simpl in Hrun; [discriminate|].
  injection Hrun as -> ->. unfold calculate_kpis_of in E.
  apply and_then_inr in E as (k1 & _ & E).
  apply and_then_inr in E as (k2 & _ & E).
  apply and_then_inr in E as (k3 & _ & E).
  apply and_then_inr in E as (k4 & _ & H5).
  unfold company_kpi_of in H5. rewrite Hs in H5. injection H5 as <-.
  rewrite lookup_insert_eq. unfold top_company.
  destruct (mode_most_frequent s) as [Hnone Hsome]. split.
  - intros Hv. now rewrite (Hnone Hv).
  - intros Hv. destruct (Hsome Hv) as (top & rest & -> & Htop & Hmax).
    exists top. split; [reflexivity|].
    apply dropna_elem in Htop as [Hin Hna]. now repeat split.
Qed.

(** ** The preview (lines 301-305) *)


End Dashboard.

(** * The theorems at work on examples *)




Lemma loaded_table_not_mutated_witness :
  heap example_world !! 7%nat = Some example_frame ∧
  world_of (calculate_kpis 7 example_world) = example_world ∧
  ∃ (copy : nat) (w' : world),
    make_display_safe PyStr.decimal_repr 7 example_world = Ret copy w' ∧
    copy ≠ 7%nat ∧
    heap example_world !! copy = None ∧
    heap w' !! 7%nat = Some example_frame ∧
    (∀ r, r ≠ copy → heap w' !! r = heap example_world !! r) ∧
    page w' = page example_world.
Proof.
  split; [reflexivity|].
  apply (loaded_table_not_mutated PyStr.decimal_repr example_world 7 example_frame).
  reflexivity.
Defined.


Lemma non_csv_upload_rejected_witness :
  uploader_shown excel_upload = true ∧
  uploaded_file excel_upload = Some excel_file ∧
  PyStr.endswith (name excel_file) ".csv" = false ∧
  ∃ (df_all : nat) (w1 : world) (before : list element),
    load excel_upload start = Ret df_all w1 ∧
    heap w1 !! df_all = Some [] ∧
    Forall is_notice before ∧
    page w1 = (before ++ [Notice StError ExcelNotSupported])%list ∧
    run PyStr.decimal_repr excel_upload
    = Exc StopException (shown w1 (Notice StError NoDataAvailable)) ∧
    ∀ other, run PyStr.decimal_repr (with_content excel_upload excel_file other)
             = run PyStr.decimal_repr excel_upload.
Proof.
  split; [reflexivity|]. split; [reflexivity|]. split; [reflexivity|].
  apply (non_csv_upload_rejected PyStr.decimal_repr excel_upload excel_file);
    reflexivity.
Defined.

Lemma empty_table_halts_witness :
  uploader_shown header_only_upload = true ∧
  uploaded_file header_only_upload = Some (Upload "survey.csv" (Some header_only)) ∧
  PyStr.endswith "survey.csv" ".csv" = true ∧
  Forall (λ column, snd column = []) header_only ∧
  ∃ (df_all : nat) (w1 : world) (T : frame),
    load header_only_upload start = Ret df_all w1 ∧
    heap w1 !! df_all = Some T ∧
    Frame.columns T = map fst header_only ∧
    Frame.len T = 0%nat ∧
    Forall is_notice (page w1) ∧
    run PyStr.decimal_repr header_only_upload
    = Exc StopException (shown w1 (Notice StError NoDataAvailable)).
Proof.
  split; [reflexivity|]. split; [reflexivity|]. split; [reflexivity|].
  split; [repeat constructor|].
  apply (proj2 (empty_table_halts PyStr.decimal_repr) header_only_upload
               (Upload "survey.csv" (Some header_only)) header_only);
    try reflexivity.
  repeat constructor.
Defined.

Lemma respondent_count_is_row_count_witness :
  ∃ (df_all : nat) (w1 : world) (T : frame) (w' : world),
    load age_upload start = Ret df_all w1 ∧
    heap w1 !! df_all = Some T ∧
    run PyStr.decimal_repr age_upload = Ret () w' ∧
    ∃ (rest : list element),
      page w'
      = (page w1
         ++ ShowMetric KpiCol1
              (Metric "Total Responses"
                      (Fmt "" (CInt (Z.of_nat (Frame.len T))) "," "")
                      (Some (Fmt "of " (CInt (Z.of_nat (Frame.len T))) "," " total")))
         :: rest)%list ∧
      ∀ m, ShowMetric KpiCol1 m ∉ rest.
Proof.
  do 4 eexists.
  split; [vm_compute; reflexivity|].
  split; [reflexivity|].
  split; [vm_compute; reflexivity|].
  eapply (respondent_count_is_row_count PyStr.decimal_repr age_upload).
  - vm_compute. reflexivity.
  - reflexivity.
  - vm_compute. reflexivity.
Defined.


Lemma nan_matched_as_whole_cell_witness :
  heap example_world !! 7%nat = Some example_frame ∧
  ∃ (w_up : world) (up : frame) (copy : nat) (w_safe : world) (safe : frame),
    replace_nan 7 example_world = Ret () w_up ∧
    heap w_up !! 7%nat = Some up ∧
    make_display_safe PyStr.decimal_repr 7 example_world = Ret copy w_safe ∧
    heap w_safe !! copy = Some safe ∧
    ∀ (i : nat) (col : string) (s : series),
      example_frame !! i = Some (col, s) →
      ∃ s_up s_safe,
        up !! i = Some (col, s_up) ∧
        safe !! i = Some (col, s_safe) ∧
        ∀ (j : nat) (c : cell),
          s !! j = Some c →
          ∃ c_up c_safe,
            s_up !! j = Some c_up ∧
            s_safe !! j = Some c_safe ∧
            (c = CStr "nan" → c_up = CNone ∧ isna c_up = true ∧ c_safe = CStr "") ∧
            (c ≠ CStr "nan" → c_up = c) ∧
            (∀ t, c = CStr t → t ≠ "nan" → t ≠ "<NA>" → c_safe = c) ∧
            (∀ t, c = CStr t → PyStr.contains "nan" t = true → t ≠ "nan" →
                  c_up = c ∧ c_safe = c).
Proof.
  split; [reflexivity|].
  apply (nan_matched_as_whole_cell PyStr.decimal_repr example_world 7 example_frame).
  reflexivity.
Defined.

(** * The further properties at work on examples *)

Lemma data_part_behind_gate_witness :
  script PyStr.decimal_repr "secret" no_clicks age_upload (Some true)
  = (Some true, Dashboard (run PyStr.decimal_repr age_upload)) ∧
  (is_dashboard (Dashboard (run PyStr.decimal_repr age_upload))
   ↔ "secret" = "" ∨ (Some true = Some true ∧ logout_clicked no_clicks = false)) ∧
  (is_dashboard (Dashboard (run PyStr.decimal_repr age_upload)) →
   Dashboard (run PyStr.decimal_repr age_upload)
   = Dashboard (run PyStr.decimal_repr age_upload) ∧
   logged_in (Some true) = logged_in (Some true)).
Proof.
  split; [reflexivity|].
  apply (data_part_behind_gate PyStr.decimal_repr "secret" no_clicks age_upload
           (Some true) (Some true)).
  reflexivity.
Defined.

Lemma rerun_at_most_once_witness :
  ∃ s' e,
    (∀ fuel, (2 ≤ fuel)%nat →
             interact PyStr.decimal_repr fuel "secret" right_guess age_upload None
             = Some (s', e)) ∧
    (∀ notices, e ≠ Reran notices) ∧
    (∀ s1 notices,
       script PyStr.decimal_repr "secret" right_guess age_upload None
       = (s1, Reran notices) →
       script PyStr.decimal_repr "secret" (released right_guess) age_upload s1
       = (s', e)).
Proof.
  exact (rerun_at_most_once PyStr.decimal_repr "secret" right_guess age_upload None).
Defined.

Lemma no_access_without_password_witness :
  "secret" ≠ "" ∧
  logged_in None = false ∧
  browse PyStr.decimal_repr "secret"
         [(wrong_guess, age_upload); (right_guess, age_upload)] None
  = (Some true, [rejected; Dashboard (run PyStr.decimal_repr age_upload)]) ∧
  Exists (submits "secret") [(wrong_guess, age_upload); (right_guess, age_upload)].
Proof.
  split; [discriminate|]. split; [reflexivity|]. split; [reflexivity|].
  apply (no_access_without_password PyStr.decimal_repr "secret"
           [(wrong_guess, age_upload); (right_guess, age_upload)] None (Some true)
           [rejected; Dashboard (run PyStr.decimal_repr age_upload)]).
  - discriminate.
  - reflexivity.
  - reflexivity.
  - right. reflexivity.
Defined.

Lemma wrong_guesses_do_not_lock_witness :
  "secret" ≠ "" ∧
  logged_in None = false ∧
  Forall (guesses_wrong "secret") [(wrong_guess, age_upload); (empty_guess, no_file)] ∧
  submits "secret" (right_guess, age_upload) ∧
  (∃ s1, browse PyStr.decimal_repr "secret"
                [(wrong_guess, age_upload); (empty_guess, no_file)] None
         = (s1, [rejected; rejected]) ∧
         logged_in s1 = false) ∧
  browse PyStr.decimal_repr "secret"
         [(wrong_guess, age_upload); (empty_guess, no_file);
          (right_guess, age_upload)] None
  = (Some true, [rejected; rejected; Dashboard (run PyStr.decimal_repr age_upload)]).
Proof.
  assert (Hwrong : Forall (guesses_wrong "secret")
                     [(wrong_guess, age_upload); (empty_guess, no_file)]).
  { repeat constructor; discriminate. }
  split; [discriminate|]. split; [reflexivity|]. split; [exact Hwrong|].
  split; [split; reflexivity|].
  apply (wrong_guesses_do_not_lock PyStr.decimal_repr "secret"
           [(wrong_guess, age_upload); (empty_guess, no_file)]
           right_guess age_upload None).
  - discriminate.
  - reflexivity.
  - exact Hwrong.
  - split; reflexivity.
Defined.

Lemma login_then_logout_witness :
  "secret" ≠ "" ∧
  logged_in None = false ∧
  submits "secret" (right_guess, age_upload) ∧
  logout_clicked logout_click = true ∧
  interact PyStr.decimal_repr 1 "secret" right_guess age_upload None = None ∧
  browse PyStr.decimal_repr "secret"
         [(right_guess, age_upload); (logout_click, no_file)] None
  = (Some false, [Dashboard (run PyStr.decimal_repr age_upload); login_prompt]).
Proof.
  split; [discriminate|]. split; [reflexivity|]. split; [split; reflexivity|].
  split; [reflexivity|].
  apply (login_then_logout PyStr.decimal_repr "secret" right_guess logout_click
           age_upload no_file None).
  - discriminate.
  - reflexivity.
  - split; reflexivity.
  - reflexivity.
Defined.

Lemma sample_table_loaded_as_read_witness :
  sample_loads sample_visit example_frame ∧
  ∃ (df_all : nat) (w1 : world),
    load sample_visit start = Ret df_all w1 ∧
    heap w1 !! df_all = Some example_frame ∧
    page w1 = [Notice StSuccess
                 (SampleLoaded (Frame.len example_frame)
                               (length (Frame.columns example_frame)))] ∧
    ∀ up, load (with_upload sample_visit up) start = Ret df_all w1.
Proof.
  assert (Hs : sample_loads sample_visit example_frame) by (repeat split).
  split; [exact Hs|].
  apply (sample_table_loaded_as_read sample_visit example_frame). exact Hs.
Defined.

Lemma no_upload_prompts_witness :
  uploader_shown no_file = true ∧
  uploaded_file no_file = None ∧
  ∃ (before : list element),
    Forall (λ e, from_loading e = true) before ∧
    run PyStr.decimal_repr no_file
    = Exc StopException
        (World (heap (before_upload no_file).2)
               (before ++ [Notice StInfo PleaseUpload])) ∧
    ∀ n, Notice StError n ∉ (before ++ [Notice StInfo PleaseUpload])%list.
Proof.
  split; [reflexivity|]. split; [reflexivity|].
  apply (no_upload_prompts PyStr.decimal_repr no_file); reflexivity.
Defined.

Lemma reader_failure_caught_on_sample_only_witness :
  (data_choice broken_sample = UseSample ∧
   default_csv broken_sample = Some None ∧
   ∃ df0 w0,
     load broken_sample start = load_upload broken_sample df0 w0 ∧
     heap w0 !! df0 = Some [] ∧
     page w0 = [Notice StWarning SampleIssue; Notice StInfo FilesNotFound]) ∧
  (uploader_shown broken_upload = true ∧
   uploaded_file broken_upload = Some broken_file ∧
   PyStr.endswith (name broken_file) ".csv" = true ∧
   content broken_file = None ∧
   run PyStr.decimal_repr broken_upload
   = Exc ParserError (before_upload broken_upload).2).
Proof.
  split.
  - split; [reflexivity|]. split; [reflexivity|].
    apply (proj1 (reader_failure_caught_on_sample_only PyStr.decimal_repr) broken_sample);
      reflexivity.
  - split; [reflexivity|]. split; [reflexivity|]. split; [reflexivity|].
    split; [reflexivity|].
    apply (proj2 (reader_failure_caught_on_sample_only PyStr.decimal_repr)
                 broken_upload broken_file);
      reflexivity.
Defined.

Lemma upload_keeps_shape_and_text_witness :
  uploader_shown mixed_upload = true ∧
  uploaded_file mixed_upload = Some mixed_file ∧
  PyStr.endswith (name mixed_file) ".csv" = true ∧
  content mixed_file = Some mixed_fields ∧
  rectangular mixed_fields ∧
  ∃ (df_all : nat) (w1 : world) (T : frame),
    load mixed_upload start = Ret df_all w1 ∧
    heap w1 !! df_all = Some T ∧
    Frame.columns T = map fst mixed_fields ∧
    ∀ (i : nat) (col : string) (fields : list string),
      mixed_fields !! i = Some (col, fields) →
      ∃ s, T !! i = Some (col, s) ∧
           length s = length fields ∧
           (has_numeric_indicator col = false →
            ∀ (j : nat) (t : string),
              fields !! j = Some t →
              s !! j = Some (if bool_decide (t ∈ na_values) then CNaN else CStr t)).
Proof.
  assert (Hrect : rectangular mixed_fields) by (exists 4%nat; repeat constructor).
  split; [reflexivity|]. split; [reflexivity|]. split; [reflexivity|].
  split; [reflexivity|]. split; [exact Hrect|].
  apply (upload_keeps_shape_and_text mixed_upload mixed_file mixed_fields);
    try reflexivity.
  exact Hrect.
Defined.

Lemma replace_nan_finds_nothing_witness :
  heap (World {[0%nat := read_csv_frame mixed_fields]} []) !! 0%nat
  = Some (read_csv_frame mixed_fields) ∧
  replace_nan 0 (World {[0%nat := read_csv_frame mixed_fields]} [])
  = Ret () (World {[0%nat := read_csv_frame mixed_fields]} []).
Proof.
  split; [reflexivity|].
  apply (replace_nan_finds_nothing (World {[0%nat := read_csv_frame mixed_fields]} [])
           0 mixed_fields).
  reflexivity.
Defined.

Lemma coerce_numeric_settles_witness :
  heap example_world !! 7%nat = Some example_frame ∧
  ∃ (w1 : world) (f1 : frame),
    coerce_numeric 7 example_world = Ret () w1 ∧
    heap w1 !! 7%nat = Some f1 ∧
    coerce_numeric 7 w1 = Ret () w1 ∧
    Frame.columns f1 = Frame.columns example_frame ∧
    ∀ (i : nat) (col : string) (s : series),
      example_frame !! i = Some (col, s) →
      ∃ s1, f1 !! i = Some (col, s1) ∧
            (has_numeric_indicator col = false → s1 = s) ∧
            (has_numeric_indicator col = true → ∀ c, c ∈ s1 → is_text c = false).
Proof.
  split; [reflexivity|].
  apply (coerce_numeric_settles example_world 7 example_frame). reflexivity.
Defined.

Lemma filtered_data_always_full_witness :
  ∃ w, run PyStr.decimal_repr mixed_upload = Ret () w ∧
       ShowMetric Col1 (Metric "Filtered Data" (Lit "100%") None) ∈ page w ∧
       ∀ v d, ShowMetric Col1 (Metric "Filtered Data" v d) ∈ page w →
              v = Lit "100%" ∧ d = None.
Proof.
  eexists. split; [vm_compute; reflexivity|].
  eapply (filtered_data_always_full PyStr.decimal_repr mixed_upload).
  vm_compute. reflexivity.
Defined.



Lemma kpis_raise_exactly_on_text_witness :
  heap (World {[0%nat := rate_frame]} []) !! 0%nat = Some rate_frame ∧
  kpi_labels_unique rate_frame ∧
  (text_in_kpi_column rate_frame →
   calculate_kpis 0 (World {[0%nat := rate_frame]} [])
   = Exc TypeError (World {[0%nat := rate_frame]} [])) ∧
  (¬ text_in_kpi_column rate_frame →
   ∃ kpis, calculate_kpis 0 (World {[0%nat := rate_frame]} [])
           = Ret kpis (World {[0%nat := rate_frame]} [])).
Proof.
  assert (Huniq : kpi_labels_unique rate_frame).
  { intros col Hin.
    repeat (apply elem_of_cons in Hin as [->|Hin]; [vm_compute; lia|]).
    now apply elem_of_nil in Hin. }
  split; [reflexivity|]. split; [exact Huniq|].
  apply (kpis_raise_exactly_on_text (World {[0%nat := rate_frame]} []) 0 rate_frame).
  - reflexivity.
  - exact Huniq.
Defined.



Lemma top_company_most_frequent_witness :
  heap priority_world !! 0%nat = Some priority_frame ∧
  calculate_kpis 0 priority_world = Ret priority_kpis priority_world ∧
  Frame.select company_col priority_frame = [[CStr "A"; CStr "B"; CStr "A"]] ∧
  (Series.dropna [CStr "A"; CStr "B"; CStr "A"] = [] →
   priority_kpis !! "top_company" = Some (CStr "N/A")) ∧
  (Series.dropna [CStr "A"; CStr "B"; CStr "A"] ≠ [] →
   ∃ top, priority_kpis !! "top_company" = Some top ∧
          top ∈ [CStr "A"; CStr "B"; CStr "A"] ∧ isna top = false ∧
          ∀ c, c ∈ Series.dropna [CStr "A"; CStr "B"; CStr "A"] →
               (Series.count c (Series.dropna [CStr "A"; CStr "B"; CStr "A"])
                ≤ Series.count top (Series.dropna [CStr "A"; CStr "B"; CStr "A"]))%nat).
Proof.
  split; [reflexivity|]. split; [reflexivity|]. split; [reflexivity|].
  apply (top_company_most_frequent priority_world 0 priority_frame priority_kpis
           priority_world [CStr "A"; CStr "B"; CStr "A"]);
    reflexivity.
Defined.

